(** * xlwings/main.py: document resolution, Range construction, indexing
      and region expansion

    A shallow embedding of the object-resolution and range-addressing core
    of [xlwings/main.py].  Python integers are [Z], strings are [string],
    keyword-option dictionaries are [gmap string value], raised exceptions
    are the [Raise] branch of the [res] monad.  The platform layer
    ([xlplatform], not part of [main.py]) is the class [XlPlatform] for the
    operations whose behaviour [main.py] does not fix, and a coordinate
    model for the cell arithmetic. *)

From stdpp Require Import gmap strings list pretty.
From Stdlib Require Import ZArith Lia Ascii.

Open Scope string_scope.
Open Scope Z_scope.

(** ** Python exceptions and the error monad *)

Inductive exn : Type :=
  | Exception (msg : string)
  | IndexError (msg : string)
  | ValueError (msg : string)
  | AttributeError (msg : string)
  | NameError (msg : string)
  | AssertionError
  | HostError.   (* failure raised by the automation layer *)

Inductive res (A : Type) : Type :=
  | Ok (a : A)
  | Raise (e : exn).
Arguments Ok {A} a.
Arguments Raise {A} e.

Definition rbind {A B} (m : res A) (k : A -> res B) : res B :=
  match m with
  | Ok a => k a
  | Raise e => Raise e
  end.

Notation "'let!' x ':=' m 'in' k" := (rbind m (fun x => k))
  (at level 10, x name, m at level 100, k at level 200).

(** ** Strings *)

(** [str.lower()].  Python lower-cases every cased character of the
    string, whatever its script; the operation is not part of [main.py]
    and is a parameter of everything that calls it.  A [string] holds the
    encoded text, and [lower] is what [str.lower()] does to it. *)
Class StrLower : Type := lower : string -> string.

(** What [str.lower()] does to a string of ASCII characters; the sample
    data below are such strings. *)
Definition lower_ascii (a : ascii) : ascii :=
  let n := nat_of_ascii a in
  if (Nat.leb 65 n && Nat.leb n 90)%bool then ascii_of_nat (n + 32) else a.

Fixpoint ascii_lower (s : string) : string :=
  match s with
  | EmptyString => EmptyString
  | String a s' => String (lower_ascii a) (ascii_lower s')
  end.

(** Truth value of an optional string argument: [None] and [''] are false. *)
Definition truthy (s : option string) : bool :=
  match s with
  | None => false
  | Some s => negb (String.eqb s "")
  end.

(** ** Cell values and option bags *)

Inductive value : Type :=
  | VNone
  | VStr (s : string)
  | VNum (z : Z)
  | VBool (b : bool).

(** [v in [None, ""]] *)
Definition is_empty (v : value) : bool :=
  match v with
  | VNone => true
  | VStr s => String.eqb s ""
  | _ => false
  end.

(** ** Applications and workbooks *)

Definition xl_handle := nat.

Record Workbook : Type := mkWorkbook {
  wb_name : string;
  wb_fullname : string;
  wb_xl : xl_handle
}.

Record Application : Type := mkApplication {
  pid : Z;
  workbooks : list Workbook
}.

(** [Applications.active]: the first application of the iteration, or
    [None]. *)
Definition Applications_active (applications : list Application)
  : option Application :=
  match applications with
  | app :: _ => Some app
  | [] => None
  end.

(** Truth value of an [Application]: the class has no [__bool__], so it is
    as true as its [__len__], the number of its workbooks, is non-zero. *)
Definition Application_bool (app : Application) : bool :=
  negb (length (workbooks app) =? 0)%nat.

(** [Workbooks.__getitem__] with a number. *)
Definition msg_workbook_index (i l : Z) : string :=
  "Workbook index " +:+ pretty i +:+ " out of range (" +:+ pretty l
  +:+ " workbooks)".

Definition Workbooks_getitem (wbs : list Workbook) (name_or_index : Z)
  : res Workbook :=
  let l := Z.of_nat (length wbs) in
  if name_or_index >=? l then
    Raise (IndexError (msg_workbook_index name_or_index l))
  else
    let! index :=
      if name_or_index <? 0 then
        if name_or_index <? - l then
          Raise (IndexError (msg_workbook_index name_or_index l))
        else Ok (name_or_index + l)
      else Ok name_or_index in
    match wbs !! Z.to_nat index with
    | Some wb => Ok wb
    | None => Raise HostError
    end.

(** The two nested [for] loops of [Workbook.__init__] that collect the
    [(app, wb)] candidates. *)
Definition wb_matches {L : StrLower} (fullname : string) (wb : Workbook) : bool :=
  (String.eqb (lower (wb_fullname wb)) fullname
   || String.eqb (lower (wb_name wb)) fullname)%bool.

Fixpoint candidates {L : StrLower} (applications : list Application) (fullname : string)
  : list (Application * Workbook) :=
  match applications with
  | [] => []
  | app :: rest =>
      map (fun wb => (app, wb)) (filter (fun wb => wb_matches fullname wb = true) (workbooks app))
      ++ candidates rest fullname
  end.

Section Resolver.

Context {L : StrLower}.

(** [os.path.isfile] and the platform calls [Workbooks.open],
    [Workbooks.add] and [Application()]. *)
Variable isfile : string -> bool.
Variable wbs_open : Application -> string -> Workbook.
Variable wbs_add : Application -> Workbook.
Variable launch : Application.

Definition msg_connect (fullname : string) : string :=
  "Could not connect to workbook '" +:+ fullname +:+ "'".

Definition msg_many (fullname : string) : string :=
  "Workbook '" +:+ fullname +:+ "' is open in more than one Excel instance.".

Definition none_workbooks : exn :=
  AttributeError "'NoneType' object has no attribute 'workbooks'".

(** [Workbook.__init__(self, fullname=None, xl=None)]; the result is the
    [xl] handle the instance is bound to. *)
Definition Workbook_init (applications : list Application)
    (fullname : option string) (xl : option xl_handle) : res xl_handle :=
  match xl with
  | Some h => Ok h
  | None =>
      if truthy fullname then
        let fullname := lower (default "" fullname) in
        match candidates applications fullname with
        | [] =>
            if isfile fullname then
              match Applications_active applications with
              | Some app => Ok (wb_xl (wbs_open app fullname))
              | None => Raise none_workbooks
              end
            else Raise (Exception (msg_connect fullname))
        | _ :: _ :: _ => Raise (Exception (msg_many fullname))
        | [(_, wb)] => Ok (wb_xl wb)
        end
      else
        let started :=
          let! wb := Workbooks_getitem (workbooks launch) 0 in
          Ok (wb_xl wb) in
        match Applications_active applications with
        | Some app =>
            if Application_bool app then Ok (wb_xl (wbs_add app))
            else started
        | None => started
        end
  end.

End Resolver.

(** ** Ranges *)

Record Sheet : Type := mkSheet {
  sheet_book : xl_handle;
  sheet_name : string
}.

(** The platform's range object: a rectangle of cells on one sheet, by its
    1-based top-left corner and its extent. *)
Record xl_range : Type := mkXl {
  xr_sheet : Sheet;
  xr_row : Z;
  xr_col : Z;
  xr_rows : Z;
  xr_cols : Z
}.

Record Range : Type := mkRange {
  xl : xl_range;
  _options : gmap string value
}.

Definition worksheet (r : Range) : Sheet := xr_sheet (xl r).
Definition row (r : Range) : Z := xr_row (xl r).
Definition column (r : Range) : Z := xr_col (xl r).
Definition row_count (r : Range) : Z := xr_rows (xl r).
Definition column_count (r : Range) : Z := xr_cols (xl r).

(** [Range.shape] and [Range.size]. *)
Definition shape (r : Range) : Z * Z := (row_count r, column_count r).
Definition size (r : Range) : Z := let '(a, b) := shape r in a * b.

(** Modelled from the spec: [xlplatform.Range.__len__] is not in
    [main.py]; the element count is rowCount x columnCount. *)
Definition len (r : Range) : Z := row_count r * column_count r.

(** Positional arguments of [Range(...)]. *)
Inductive arg : Type :=
  | ARange (r : Range)
  | AStr (s : string)
  | AInt (z : Z)
  | ATuple (t : list Z)
  | ASheet (s : Sheet).

Definition is_string (a : option arg) : bool :=
  match a with Some (AStr _) => true | _ => false end.
Definition is_tuple (a : option arg) : bool :=
  match a with Some (ATuple _) => true | _ => false end.

(** [0 in s] for one element [s] of [spec]; the test is only reached for
    tuples. *)
Definition zero_in (a : arg) : bool :=
  match a with
  | ATuple t => existsb (Z.eqb 0) t
  | _ => false
  end.

(** *** Coordinate model of the platform's cell arithmetic *)

(** Modelled from the spec: a CellCoordinate has row >= 1 and column >= 1;
    the platform refuses any other cell. *)
Definition cell_at (sh : Sheet) (r c : Z) : res xl_range :=
  if ((1 <=? r) && (1 <=? c))%bool then Ok (mkXl sh r c 1 1)
  else Raise HostError.

(** Modelled from the spec: [xlplatform.Range.__call__(row, col)] is not in
    [main.py]; it is the cell at the 1-based position [(row, col)] counted
    from the range's top-left corner, inside the range or not. *)
Definition xl_item2 (x : xl_range) (r c : Z) : res xl_range :=
  cell_at (xr_sheet x) (xr_row x + r - 1) (xr_col x + c - 1).

(** Modelled from the spec: [xlplatform.Range.__call__(i)] is not in
    [main.py]; index [i] is the 1-based position in the row-major traversal
    of the range. *)
Definition xl_item1 (x : xl_range) (i : Z) : res xl_range :=
  cell_at (xr_sheet x)
    (xr_row x + (i - 1) / xr_cols x) (xr_col x + (i - 1) mod xr_cols x).

(** Modelled from the spec: [xlplatform.Sheet.range(a, b)] is not in
    [main.py]; two ranges are the opposite corners of the rectangle that
    spans both, whichever is given first. *)
Definition xl_span (a b : xl_range) : xl_range :=
  let top := Z.min (xr_row a) (xr_row b) in
  let left := Z.min (xr_col a) (xr_col b) in
  let bottom := Z.max (xr_row a + xr_rows a - 1) (xr_row b + xr_rows b - 1) in
  let right := Z.max (xr_col a + xr_cols a - 1) (xr_col b + xr_cols b - 1) in
  mkXl (xr_sheet a) top left (bottom - top + 1) (right - left + 1).

Inductive direction : Type := Down | Right.

(** The operations of [xlplatform] that [main.py] calls and does not fix. *)
Class XlPlatform : Type := {
  (** the value held by a cell of the used extent *)
  cell_value : Sheet -> Z -> Z -> value;
  used_rows : Sheet -> nat;
  used_cols : Sheet -> nat;
  (** the option bag of the [Range] built by [xlplatform.Range.__call__]
      and [end], from the receiver's bag *)
  call_options : gmap string value -> gmap string value;
  (** the option bag of the [Range] built by [xlplatform.Sheet.range(a, b)] *)
  span_options : gmap string value -> gmap string value -> gmap string value;
  (** [active.app.range(address)] *)
  app_range : string -> res xl_range;
  (** [Sheet(sheet)], that is [Workbook.active().sheet(sheet)] *)
  Sheet_init : arg -> res Sheet;
  (** [Sheet.active()] *)
  Sheet_active : res Sheet;
  (** [sheet.range(address)] for an address or a defined name *)
  address_range : Sheet -> string -> res xl_range
}.

Section Ranges.

Context {P : XlPlatform}.

(** A cell outside the used extent holds nothing. *)
Definition probe (sh : Sheet) (r c : Z) : value :=
  if ((1 <=? r) && (r <=? Z.of_nat (used_rows sh))
      && (1 <=? c) && (c <=? Z.of_nat (used_cols sh)))%bool
  then cell_value sh r c else VNone.

(** [raw_value], read on the one-cell ranges that [__call__] returns. *)
Definition raw_value (r : Range) : value :=
  probe (worksheet r) (row r) (column r).

(** Modelled from the spec: [xlplatform.Range.end] is not in [main.py];
    it jumps to the last cell of the contiguous run of non-empty cells
    that starts at the given cell, a cell being empty when it is blank or
    holds the empty string. *)
Fixpoint scan (fuel : nat) (sh : Sheet) (d : direction) (r c : Z) : Z * Z :=
  match fuel with
  | O => (r, c)
  | S fuel' =>
      let '(r', c') := match d with Down => (r + 1, c) | Right => (r, c + 1) end in
      if is_empty (probe sh r' c') then (r, c) else scan fuel' sh d r' c'
  end.

Definition xl_end (d : direction) (x : xl_range) : xl_range :=
  let fuel := match d with
              | Down => used_rows (xr_sheet x)
              | Right => used_cols (xr_sheet x)
              end in
  let '(r, c) := scan fuel (xr_sheet x) d (xr_row x) (xr_col x) in
  mkXl (xr_sheet x) r c 1 1.

(** [self(row, col)], [self(i)], [self.end(d)], [sheet.range(a, b)]. *)
Definition call2 (self : Range) (r c : Z) : res Range :=
  let! x := xl_item2 (xl self) r c in
  Ok (mkRange x (call_options (_options self))).

Definition call1 (self : Range) (i : Z) : res Range :=
  let! x := xl_item1 (xl self) i in
  Ok (mkRange x (call_options (_options self))).

Definition end_ (self : Range) (d : direction) : Range :=
  mkRange (xl_end d (xl self)) (call_options (_options self)).

Definition worksheet_range (a b : Range) : Range :=
  mkRange (xl_span (xl a) (xl b)) (span_options (_options a) (_options b)).

(** [sheet.range] applied to the [spec] that [Range.__init__] builds. *)
Definition sheet_range (sh : Sheet) (spec : list arg) : res xl_range :=
  match spec with
  | [AStr s] => address_range sh s
  | [ATuple [r; c]] => cell_at sh r c
  | [ATuple [r1; c1]; ATuple [r2; c2]] =>
      let! a := cell_at sh r1 c1 in
      let! b := cell_at sh r2 c2 in
      Ok (xl_span a b)
  | _ => Raise HostError
  end.

Definition msg_zero_based : string :=
  "Attempted to access 0-based Range. xlwings/Excel Ranges are 1-based.".

(** [Range.__init__(self, *args, xl=None, **options)] *)
Definition Range_init (args : list arg) (xl0 : option xl_range)
    (options : gmap string value) : res Range :=
  let n := length args in
  let! x :=
    match xl0 with
    | Some x => Ok x
    | None =>
        match args with
        | [ARange a; ARange b] => Ok (xl_span (xl a) (xl b))
        | [AStr s] => app_range s
        | _ =>
            if ((0 <? n)%nat && (n <=? 3)%nat)%bool then
              let! spec :=
                if is_tuple (last args) then
                  let spec :=
                    if ((1 <? n)%nat && is_tuple (args !! (n - 2)%nat))%bool
                    then drop (n - 2) args
                    else drop (n - 1) args in
                  if existsb zero_in spec
                  then Raise (IndexError msg_zero_based)
                  else Ok spec
                else if is_string (last args) then Ok (drop (n - 1) args)
                else Raise (NameError "local variable 'spec' referenced before assignment") in
              let residual_args := take (n - length spec) args in
              let! sheet :=
                match residual_args with
                | [] => Sheet_active
                | [ASheet sh] => Ok sh
                | [a] => Sheet_init a
                | _ => Raise (ValueError "Invalid arguments")
                end in
              sheet_range sheet spec
            else Raise (ValueError "Invalid arguments")
        end
    end in
  Ok (mkRange x options).

(** [Range.options(self, convert=None, **options)] *)
Definition Range_options (self : Range) (convert : value)
    (options : gmap string value) : res Range :=
  Range_init [] (Some (xl self)) (<["convert" := convert]> options).

(** The call [self.options( **d)]: the key [convert] of [d], when there is
    one, binds the named parameter and the other keys are [options]. *)
Definition options_kw (self : Range) (d : gmap string value) : res Range :=
  Range_options self (default VNone (d !! "convert")) (delete "convert" d).

(** [Range(a, b)] with two ranges and no keyword. *)
Definition Range2 (a b : Range) : res Range :=
  Range_init [ARange a; ARange b] None ∅.

(** *** Region expansion *)

(** [Range.table] *)
Definition table (self : Range) : res Range :=
  let! origin := call2 self 1 1 in
  let! bottom_left :=
    let! c21 := call2 origin 2 1 in
    if is_empty (raw_value c21) then Ok origin
    else
      let! c31 := call2 origin 3 1 in
      if is_empty (raw_value c31) then call2 origin 2 1
      else
        let! c := call2 origin 2 1 in
        Ok (end_ c Down) in
  let! top_right :=
    let! c12 := call2 origin 1 2 in
    if is_empty (raw_value c12) then Ok origin
    else
      let! c13 := call2 origin 1 3 in
      if is_empty (raw_value c13) then call2 origin 1 2
      else
        let! c := call2 origin 1 2 in
        Ok (end_ c Right) in
  Range2 top_right bottom_left.

(** [Range.vertical] *)
Definition vertical (self : Range) : res Range :=
  let! c21 := call2 self 2 1 in
  if is_empty (raw_value c21) then
    let! a := call2 self 1 1 in
    let! b := call2 self 1 (column_count self) in
    Range2 a b
  else
    let! c31 := call2 self 3 1 in
    if is_empty (raw_value c31) then
      let! a := call2 self 1 1 in
      let! b := call2 self 2 (column_count self) in
      Range2 a b
    else
      let! c := call2 self 2 1 in
      let end_row := row (end_ c Down) - row self + 1 in
      let! a := call2 self 1 1 in
      let! b := call2 self end_row (column_count self) in
      Range2 a b.

(** [Range.horizontal] *)
Definition horizontal (self : Range) : res Range :=
  let! c12 := call2 self 1 2 in
  if is_empty (raw_value c12) then
    let! a := call2 self 1 1 in
    let! b := call2 self (row_count self) 1 in
    Range2 a b
  else
    let! c13 := call2 self 1 3 in
    if is_empty (raw_value c13) then
      let! a := call2 self 1 1 in
      let! b := call2 self (row_count self) 2 in
      Range2 a b
    else
      let! c := call2 self 1 2 in
      let end_column := column (end_ c Right) - column self + 1 in
      let! a := call2 self 1 1 in
      let! b := call2 self (row_count self) end_column in
      Range2 a b.

(** *** Indexing *)

Record slice : Type := mkSlice {
  start : option Z;
  stop : option Z;
  step : option Z
}.

Inductive index : Type :=
  | IInt (z : Z)
  | ISlice (s : slice).

Inductive key : Type :=
  | KTuple (row col : index)
  | KSlice (s : slice)
  | KInt (z : Z).

Definition msg_steps : string := "Slice steps not supported.".

Definition msg_range (what : string) (i l : Z) : string :=
  what +:+ pretty i +:+ " out of range (" +:+ pretty l +:+ " elements).".

(** One axis of the tuple form: [(row1, row2)] from [row], with [count]
    the extent of the range on that axis. *)
Definition axis (count : Z) (i : index) : res (Z * Z) :=
  match i with
  | ISlice s =>
      match step s with
      | Some _ => Raise (ValueError msg_steps)
      | None =>
          Ok (match start s with None => 0 | Some a => a end,
              match stop s with None => count - 1 | Some b => b - 1 end)
      end
  | IInt z => Ok (z, z)
  end.

(** [Range.__getitem__(self, key)] *)
Definition getitem (self : Range) (k : key) : res Range :=
  match k with
  | KTuple row col =>
      let! rows := axis (row_count self) row in
      let! cols := axis (column_count self) col in
      let '(row1, row2) := rows in
      let '(col1, col2) := cols in
      if ((col1 =? col2) && (row1 =? row2))%bool then
        call2 self (row1 + 1) (col1 + 1)
      else
        let! a := call2 self (row1 + 1) (col1 + 1) in
        let! b := call2 self (row2 + 1) (col2 + 1) in
        Ok (worksheet_range a b)
  | KSlice s =>
      match step s with
      | Some _ => Raise (ValueError msg_steps)
      | None =>
          let l := len self in
          let! start :=
            match start s with
            | None => Ok 0
            | Some start =>
                if start >=? l then
                  Raise (IndexError (msg_range "Start index " start l))
                else if start <? 0 then
                  if start <? - l then
                    Raise (IndexError (msg_range "Start index " start l))
                  else Ok (l + start)
                else Ok start
            end in
          let! stop :=
            match stop s with
            | None => Ok l
            | Some stop =>
                if stop >? l then
                  Raise (IndexError (msg_range "Stop index " stop l))
                else if stop <? 0 then
                  if stop <=? - l then
                    Raise (IndexError (msg_range "Stop index " stop l))
                  else Ok (l + stop)
                else Ok stop
            end in
          let! a := call1 self (start + 1) in
          let! b := call1 self stop in
          Range2 a b
      end
  | KInt key =>
      let l := len self in
      if key >=? l then Raise (IndexError (msg_range "Index " key l))
      else if key <? 0 then
        if key <? - l then Raise (IndexError (msg_range "Index " key l))
        else call1 self (l + key + 1)
      else call1 self (key + 1)
  end.

(** *** Resizing and offsetting *)

(** [Range.resize(self, row_size=None, column_size=None)] *)
Definition resize (self : Range) (row_size column_size : option Z)
  : res Range :=
  let! row_size :=
    match row_size with
    | Some n => if 0 <? n then Ok n else Raise AssertionError
    | None => Ok (row_count self)
    end in
  let! column_size :=
    match column_size with
    | Some n => if 0 <? n then Ok n else Raise AssertionError
    | None => Ok (column_count self)
    end in
  let! a := call2 self 1 1 in
  let! b := call2 self row_size column_size in
  let! r := Range2 a b in
  options_kw r (_options self).

(** [Range.offset(self, row_offset=0, column_offset=0)] *)
Definition offset (self : Range) (row_offset column_offset : Z)
  : res Range :=
  let! a := call2 self (row_offset + 1) (column_offset + 1) in
  let! b := call2 self (row_offset + row_count self)
              (column_offset + column_count self) in
  let! r := Range2 a b in
  options_kw r (_options self).

(** [Range.last_cell] *)
Definition last_cell (self : Range) : res Range :=
  let! c := call2 self (row_count self) (column_count self) in
  options_kw c (_options self).

End Ranges.

(** ** The other resolver, the collections and the string helpers *)

Section ApplicationWorkbook.

Context {L : StrLower}.

Variable isfile : string -> bool.
Variable wbs_open : Application -> string -> Workbook.
Variable wbs_add : Application -> Workbook.

(** [Application.workbook(self, fullname=None)]: the [for] loop returns
    the first workbook of this application that matches. *)
Definition Application_workbook (self : Application)
    (fullname : option string) : res Workbook :=
  if truthy fullname then
    let fullname := lower (default "" fullname) in
    match List.find (wb_matches fullname) (workbooks self) with
    | Some wb => Ok wb
    | None =>
        if isfile fullname then Ok (wbs_open self fullname)
        else Raise (Exception (msg_connect fullname))
    end
  else Ok (wbs_add self).

End ApplicationWorkbook.

(** Keys of the collections: a number or a name. *)
Inductive name_or_index : Type :=
  | ByIndex (i : Z)
  | ByName (s : string).

(** Modelled from the spec: [xlplatform.Sheets.__call__] is not in
    [main.py]; a sheet is found by its 1-based index or by its name, and
    names are compared case-insensitively. *)
Definition Sheets_call {L : StrLower} (sheets : list Sheet) (k : name_or_index)
  : res Sheet :=
  match k with
  | ByIndex i =>
      if 1 <=? i then
        match sheets !! Z.to_nat (i - 1) with
        | Some s => Ok s
        | None => Raise HostError
        end
      else Raise HostError
  | ByName n =>
      match List.find (fun s => String.eqb (lower (sheet_name s)) (lower n)) sheets with
      | Some s => Ok s
      | None => Raise HostError
      end
  end.

Definition msg_sheet_index (i l : Z) : string :=
  "Sheet index " +:+ pretty i +:+ " out of range (" +:+ pretty l
  +:+ " sheets)".

(** [Sheets.__getitem__(self, name_or_index)] *)
Definition Sheets_getitem {L : StrLower} (sheets : list Sheet)
    (k : name_or_index) : res Sheet :=
  match k with
  | ByIndex i =>
      let l := Z.of_nat (length sheets) in
      if i >=? l then Raise (IndexError (msg_sheet_index i l))
      else
        let! index :=
          if i <? 0 then
            if i <? - l then Raise (IndexError (msg_sheet_index i l))
            else Ok (i + l)
          else Ok i in
        Sheets_call sheets (ByIndex (index + 1))
  | ByName _ => Sheets_call sheets k
  end.

(** [Sheets.__iter__]: [self(i + 1)] for [i] in [range(len(self))]. *)
Definition Sheets_iter {L : StrLower} (sheets : list Sheet) : list (res Sheet) :=
  map (fun i => Sheets_call sheets (ByIndex (Z.of_nat i + 1)))
    (seq 0 (length sheets)).

(** [str.find] and [str.rfind] with a one-character argument, and the
    slice [s[k:]] for [k >= 0]. *)
Fixpoint str_find (c : ascii) (s : string) : Z :=
  match s with
  | EmptyString => -1
  | String a s' =>
      if Ascii.eqb a c then 0
      else let k := str_find c s' in if k <? 0 then -1 else k + 1
  end.

Fixpoint str_rfind (c : ascii) (s : string) : Z :=
  match s with
  | EmptyString => -1
  | String a s' =>
      let k := str_rfind c s' in
      if 0 <=? k then k + 1
      else if Ascii.eqb a c then 0 else -1
  end.

Fixpoint str_from (k : nat) (s : string) : string :=
  match k, s with
  | O, _ => s
  | S k', String _ s' => str_from k' s'
  | S _, EmptyString => EmptyString
  end.

Section Address.

(** [self.xl_range.get_address(row_absolute, column_absolute, external)] *)
Variable xl_get_address : bool -> bool -> bool -> string.

(** [Range.get_address(self, row_absolute=True, column_absolute=True,
    include_sheetname=False, external=False)] *)
Definition get_address (row_absolute column_absolute include_sheetname
    external : bool) : string :=
  if (include_sheetname && negb external)%bool then
    let temp_str := xl_get_address row_absolute column_absolute true in
    if str_find "[" temp_str >? -1 then
      let results_address :=
        str_from (Z.to_nat (str_rfind "]" temp_str + 1)) temp_str in
      if str_find "'" results_address >? -1
      then "'" +:+ results_address
      else results_address
    else temp_str
  else xl_get_address row_absolute column_absolute external.

End Address.

(** [Range.add_hyperlink(self, address, text_to_display=None,
    screen_tip=None)]: the three arguments that reach
    [xl_range.set_hyperlink]. *)
Definition add_hyperlink (address : string)
    (text_to_display screen_tip : option string) : string * string * string :=
  let text_to_display :=
    match text_to_display with None => address | Some t => t end in
  let address :=
    if String.eqb (String.substring 0 4 address) "www."
    then "http://" +:+ address else address in
  let screen_tip :=
    match screen_tip with
    | None =>
        address +:+ " - Click once to follow. Click and hold to select this cell."
    | Some t => t
    end in
  (address, text_to_display, screen_tip).

Section RangeIteration.

Context {P : XlPlatform}.

(** [Range.__iter__]: the cells [self(i + 1)] for [i] in
    [range(len(self))], in the order the generator yields them. *)
Definition Range_iter (self : Range) : list (res Range) :=
  map (fun i => call1 self (Z.of_nat i + 1)) (seq 0 (Z.to_nat (len self))).

End RangeIteration.

Section SheetsAdd.

Context {L : StrLower}.

(** [xlplatform.Sheets.add(before, after)]: the new sheet, under the
    name that the platform gives it. *)
Variable xl_sheets_add : list Sheet -> option Sheet -> option Sheet -> res Sheet.

(** The [before] and [after] arguments: a [Sheet], or what [self(...)]
    finds. *)
Inductive sheet_ref : Type :=
  | TheSheet (s : Sheet)
  | Lookup (k : name_or_index).

Definition msg_sheet_present (name : string) : string :=
  "Sheet named '" +:+ name +:+ "' already present in workbook".

Definition resolve_ref (sheets : list Sheet) (r : option sheet_ref)
  : res (option Sheet) :=
  match r with
  | None => Ok None
  | Some (TheSheet s) => Ok (Some s)
  | Some (Lookup k) => let! s := Sheets_call sheets k in Ok (Some s)
  end.

(** [Sheets.add(self, name=None, before=None, after=None)]: the sheet it
    returns. *)
Definition Sheets_add (sheets : list Sheet) (name : option string)
    (before after : option sheet_ref) : res Sheet :=
  let! _ :=
    match name with
    | Some name =>
        if existsb (fun s => String.eqb (lower (sheet_name s)) (lower name)) sheets
        then Raise (ValueError (msg_sheet_present name))
        else Ok tt
    | None => Ok tt
    end in
  let! before := resolve_ref sheets before in
  let! after := resolve_ref sheets after in
  let! s := xl_sheets_add sheets before after in
  match name with
  | Some name => Ok (mkSheet (sheet_book s) name)
  | None => Ok s
  end.

End SheetsAdd.

(** ** Shapes, charts, pictures and [Workbook.caller] *)

(** These constructors can also end in a [TypeError], raised by the call
    itself and not by a [raise] of [main.py]: a keyword that the callee
    does not have, a keyword given twice in one call, or arguments handed
    to [object.__init__].  The wording of the message depends on the
    Python version and is left out. *)
Inductive type_error : Type :=
  | UnexpectedKeyword (keyword : string)
  | MultipleValues (keyword : string)
  | ObjectInitArguments.

Inductive raised : Type :=
  | Std (e : exn)
  | TypeError (why : type_error).

Inductive outcome (A : Type) : Type :=
  | Done (a : A)
  | Fails (e : raised).
Arguments Done {A} a.
Arguments Fails {A} e.

Definition obind {A B} (m : outcome A) (k : A -> outcome B) : outcome B :=
  match m with
  | Done a => k a
  | Fails e => Fails e
  end.

Notation "'do!' x ':=' m 'in' k" := (obind m (fun x => k))
  (at level 10, x name, m at level 100, k at level 200).

Definition lift {A} (m : res A) : outcome A :=
  match m with
  | Ok a => Done a
  | Raise e => Fails (Std e)
  end.

(** [object.__init__], reached through [super()] from a class that
    defines its own [__init__]: it takes the instance and nothing else. *)
Definition object_init (keywords : list string) : outcome unit :=
  match keywords with
  | [] => Done tt
  | _ :: _ => Fails (TypeError ObjectInitArguments)
  end.

(** Keyword values of the shape constructors. *)
Inductive kw : Type :=
  | KwVal (v : value)
  | KwRange (r : Range)
  | KwHandle (h : xl_handle).

(** Truth value of a keyword value; a [Range] is as true as its [__len__]
    is non-zero. *)
Definition kw_bool (k : option kw) : bool :=
  match k with
  | None | Some (KwVal VNone) => false
  | Some (KwVal (VStr s)) => negb (String.eqb s "")
  | Some (KwVal (VNum z)) => negb (z =? 0)
  | Some (KwVal (VBool b)) => b
  | Some (KwRange r) => negb (len r =? 0)
  | Some (KwHandle _) => true
  end.

(** [k is None], for a keyword that is left out or given as [None]. *)
Definition is_None (k : option kw) : bool :=
  match k with
  | None | Some (KwVal VNone) => true
  | Some _ => false
  end.

(** What a chart constructor asks of the platform once the object is
    set up. *)
Inductive chart_call : Type :=
  | SetType (chart_type : kw)
  | SetSourceData (source : kw).

Section Shapes.

Context {P : XlPlatform}.

(** [sheet.get_shape_object], [sheet.xl_sheet.get_chart_object],
    [sheet.xl_sheet.add_chart], [xl_chart.set_name] and
    [ChartType.xlColumnClustered]. *)
Variable get_shape_object : Sheet -> arg -> res xl_handle.
Variable get_chart_object : Sheet -> arg -> res xl_handle.
Variable add_chart : Sheet -> Z -> Z -> Z -> Z -> res xl_handle.
Variable set_name : xl_handle -> kw -> res unit.
Variable xlColumnClustered : Z.

(** [sheet] unless it is a [Sheet] already: [Sheet(sheet)]. *)
Definition as_Sheet (sheet : arg) : res Sheet :=
  match sheet with
  | ASheet sh => Ok sh
  | _ => Sheet_init sheet
  end.

(** [Shape.__init__(self, *args, xl=None, **kwargs)] *)
Definition Shape_init (args : list arg) (xl0 : option kw)
    (kwargs : gmap string kw) : outcome unit :=
  do! x :=
    if is_None xl0 then
      match args with
      | [a] =>
          do! h := lift (let! sh := Sheet_active in get_shape_object sh a) in
          Done (KwHandle h)
      | [s; a] =>
          do! h := lift (let! sh := as_Sheet s in get_shape_object sh a) in
          Done (KwHandle h)
      | _ => Fails (Std (ValueError "Invalid arguments"))
      end
    else Done (default (KwVal VNone) xl0) in
  object_init ["xl"].

(** The call [super(...).__init__( *args, **keywords)] that reaches
    [Shape.__init__]: the keyword [xl], if there is one, is bound to the
    parameter [xl], and the other keywords make up the callee's
    [kwargs]. *)
Definition Shape_super (args : list arg) (keywords : gmap string kw)
  : outcome unit :=
  Shape_init args (keywords !! "xl") (delete "xl" keywords).

(** [Chart.__init__(self, *args, xl_chart=None, **kwargs)]; without
    [xl_chart] and with a number of arguments other than 1 or 2 the
    attribute [self.xl_chart] is read before it is set.  The call
    [super(Chart, self).__init__( *args, xl_shape=self.xl_chart,
    **kwargs)] gives [xl_shape] twice when [kwargs] holds that keyword. *)
Definition Chart_init (args : list arg) (xl_chart : option xl_handle)
    (kwargs : gmap string kw) : outcome (list chart_call) :=
  do! c :=
    match xl_chart with
    | Some c => Done c
    | None =>
        match args with
        | [a] => lift (let! sh := Sheet_active in get_chart_object sh a)
        | [s; a] => lift (let! sh := as_Sheet s in get_chart_object sh a)
        | _ => Fails (Std (AttributeError "'Chart' object has no attribute 'xl_chart'"))
        end
    end in
  do! _ :=
    match kwargs !! "xl_shape" with
    | Some _ => Fails (TypeError (MultipleValues "xl_shape"))
    | None => Shape_super args (<["xl_shape" := KwHandle c]> kwargs)
    end in
  let chart_type := kwargs !! "chart_type" in
  let source_data := kwargs !! "source_data" in
  Done ((if kw_bool chart_type
         then [SetType (default (KwVal VNone) chart_type)] else [])
        ++ (if kw_bool source_data
            then [SetSourceData (default (KwVal VNone) source_data)] else []))%list.

(** [Chart.add(cls, sheet=None, left=0, top=0, width=355, height=211,
    **kwargs)] *)
Definition Chart_add (sheet : option arg) (left top width height : Z)
    (kwargs : gmap string kw) : outcome (list chart_call) :=
  do! sh :=
    match sheet with
    | None => lift Sheet_active
    | Some s => lift (as_Sheet s)
    end in
  do! xl_chart := lift (add_chart sh left top width height) in
  let chart_type := default (KwVal (VNum xlColumnClustered)) (kwargs !! "chart_type") in
  let name := kwargs !! "name" in
  let source_data := default (KwVal VNone) (kwargs !! "source_data") in
  do! _ :=
    if kw_bool name then lift (set_name xl_chart (default (KwVal VNone) name))
    else Done tt in
  Chart_init [] (Some xl_chart)
    (<["chart_type" := chart_type]> (<["source_data" := source_data]> ∅)).

(** [Picture.__init__(self, *args, xl_shape=None, **kwargs)]; [xl_shape]
    is a parameter of its own, so [kwargs] holds the keywords of the call
    other than [xl_shape], and the call [super(Picture, self).__init__(
    *args, xl_shape=xl_shape, **kwargs)] gives it once. *)
Definition Picture_init (args : list arg) (xl_shape : option xl_handle)
    (kwargs : gmap string kw) : outcome unit :=
  Shape_super args
    (<["xl_shape" := default (KwVal VNone) (KwHandle <$> xl_shape)]> kwargs).

End Shapes.

Section Caller.

Context {L : StrLower}.

Variable isfile : string -> bool.
Variable wbs_open : Application -> string -> Workbook.
Variable wbs_add : Application -> Workbook.
Variable launch : Application.

(** [xlplatform.get_open_workbook(fullname, hwnd=..., app_target=...)],
    which returns the application and the workbook, and
    [xlplatform.get_xl_workbook_current()]. *)
Variable get_open_workbook :
  string -> option string -> option string -> res (xl_handle * xl_handle).
Variable get_xl_workbook_current : option xl_handle.

Inductive kwarg : Type :=
  | KwStr (s : string)
  | KwXl (h : xl_handle).

Definition kw_fullname (kwargs : list (string * kwarg)) : option string :=
  match List.find (fun kv => String.eqb (fst kv) "fullname") kwargs with
  | Some (_, KwStr s) => Some s
  | _ => None
  end.

Definition kw_xl (kwargs : list (string * kwarg)) : option xl_handle :=
  match List.find (fun kv => String.eqb (fst kv) "xl") kwargs with
  | Some (_, KwXl h) => Some h
  | _ => None
  end.

(** The call [cls( **kwargs)] of the class [Workbook]: the keywords are
    bound to the parameters [fullname] and [xl] of [__init__], and the
    first keyword that is neither is refused. *)
Definition Workbook_call (applications : list Application)
    (kwargs : list (string * kwarg)) : outcome xl_handle :=
  match List.find (fun kv => negb (String.eqb (fst kv) "fullname"
                                   || String.eqb (fst kv) "xl")) kwargs with
  | Some (k, _) => Fails (TypeError (UnexpectedKeyword k))
  | None =>
      lift (Workbook_init isfile wbs_open wbs_add launch applications
              (kw_fullname kwargs) (kw_xl kwargs))
  end.

(** [sys.argv[i]] *)
Definition argv_at (argv : list string) (i : nat) : res string :=
  match argv !! i with
  | Some s => Ok s
  | None => Raise (IndexError "list index out of range")
  end.

Definition msg_caller : string :=
  "Workbook.caller() must not be called directly. Call through Excel or set a mock caller first with Workbook.set_mock_caller().".

(** [Workbook.set_mock_caller(fullpath)]: the new value of
    [Workbook._mock_file]. *)
Definition set_mock_caller (fullpath : string) : option string := Some fullpath.

(** [Workbook.caller(cls)], with [Workbook._mock_file] when it is set,
    [sys.argv] and [sys.platform]. *)
Definition caller (applications : list Application)
    (_mock_file : option string) (argv : list string) (platform : string)
  : outcome xl_handle :=
  match _mock_file with
  | Some f =>
      do! found := lift (get_open_workbook f None None) in
      Workbook_call applications [("xl_workbook", KwXl (snd found))]
  | None =>
      if ((2 <? length argv)%nat
          && bool_decide (argv !! 2%nat = Some "from_xl"))%bool then
        do! name := lift (argv_at argv 1) in
        let fullname := lower name in
        if String.prefix "win" platform then
          do! hwnd := lift (argv_at argv 4) in
          do! found := lift (get_open_workbook fullname (Some hwnd) None) in
          Workbook_call applications [("xl_workbook", KwXl (snd found))]
        else
          do! app_target := lift (argv_at argv 3) in
          do! found := lift (get_open_workbook fullname None (Some app_target)) in
          do! again := lift (argv_at argv 3) in
          Workbook_call applications
            [("xl_workbook", KwXl (snd found)); ("app_target", KwStr again)]
      else
        match get_xl_workbook_current with
        | Some h => Workbook_call applications [("xl_workbook", KwXl h)]
        | None => Fails (Std (Exception msg_caller))
        end
  end.

End Caller.

(** ** Notions of the specification *)

(** The invariant of a Region: 1-based corner, at least one cell on each
    axis. *)
Definition well_formed (r : Range) : Prop :=
  1 <= row r /\ 1 <= column r /\ 1 <= row_count r /\ 1 <= column_count r.

(** The one-cell range at [(r, c)] on sheet [sh], without options. *)
Definition cell (sh : Sheet) (r c : Z) : Range := mkRange (mkXl sh r c 1 1) ∅.

(** The rectangle with top-left corner [(r, c)], without options. *)
Definition region (sh : Sheet) (r c rows cols : Z) : Range :=
  mkRange (mkXl sh r c rows cols) ∅.

(** Emptiness in the words of the specification: a literal blank or an
    empty-string value, and nothing else. *)
Definition empty_value (v : value) : Prop := v = VNone \/ v = VStr "".

#[export] Instance value_eq_dec : EqDecision value.
Proof. solve_decision. Defined.

#[export] Instance empty_value_dec (v : value) : Decision (empty_value v).
Proof. unfold empty_value. apply _. Defined.

Section Growth.

Context {P : XlPlatform}.

(** The cell [k] positions out from [(r, c)] along the axis [d]. *)
Definition out (d : direction) (r c k : Z) : Z * Z :=
  match d with
  | Down => (r + k, c)
  | Right => (r, c + k)
  end.

(** The cell [k] positions out from [(r, c)] is empty, as a proposition
    and as the test that decides it. *)
Definition empty_at (sh : Sheet) (d : direction) (r c k : Z) : Prop :=
  let '(r', c') := out d r c k in empty_value (probe sh r' c').

Definition empty_out (sh : Sheet) (d : direction) (r c k : Z) : bool :=
  let '(r', c') := out d r c k in bool_decide (empty_value (probe sh r' c')).

(** The extent of the used part of the sheet along [d]. *)
Definition extent (sh : Sheet) (d : direction) : nat :=
  match d with
  | Down => used_rows sh
  | Right => used_cols sh
  end.

(** The position along the axis [d] where the jump from [(r, c)] lands. *)
Definition jump (sh : Sheet) (d : direction) (r c : Z) : Z :=
  let e := xl_end d (mkXl sh r c 1 1) in
  match d with
  | Down => xr_row e
  | Right => xr_col e
  end.

(** Directional growth in the words of the specification: the length of
    the block that starts at the anchor [(r, c)] and grows along [d].  The
    adjacent cell empty: 1.  The cell two positions out empty: 2.
    Otherwise the far edge is where the jump from the adjacent cell
    lands. *)
Definition growth (sh : Sheet) (d : direction) (r c : Z) : Z :=
  if empty_out sh d r c 1 then 1
  else if empty_out sh d r c 2 then 2
  else
    let '(r1, c1) := out d r c 1 in
    let anchor := match d with Down => r | Right => c end in
    jump sh d r1 c1 - anchor + 1.

End Growth.

(** Whether a key carries a slice with an explicit step. *)
Definition index_step (i : index) : bool :=
  match i with
  | ISlice s => bool_decide (is_Some (step s))
  | IInt _ => false
  end.

Definition has_step (k : key) : bool :=
  match k with
  | KTuple r c => (index_step r || index_step c)%bool
  | KSlice s => bool_decide (is_Some (step s))
  | KInt _ => false
  end.

(** The tuple forms of [Range(...)]: one or two tuples, alone or after a
    sheet given by name, by index or as a [Sheet]. *)
Definition sheet_arg (a : arg) : bool :=
  match a with
  | AStr _ | AInt _ | ASheet _ => true
  | _ => false
  end.

Definition tuple_form (args : list arg) : bool :=
  match args with
  | [ATuple _] | [ATuple _; ATuple _] => true
  | [s; ATuple _] | [s; ATuple _; ATuple _] => sheet_arg s
  | _ => false
  end.

(** ** A platform to run the definitions on *)

(** The sample identifiers and names are ASCII strings. *)
#[export] Instance ascii_strings : StrLower := ascii_lower.

Definition Sheet1 : Sheet := mkSheet 0%nat "Sheet1".

(** A1:B2 holds [[1, 2], [3, 4]]; every other cell is blank. *)
Definition grid_2x2 (r c : Z) : value :=
  if ((1 <=? r) && (r <=? 2) && (1 <=? c) && (c <=? 2))%bool
  then VNum (2 * (r - 1) + c) else VNone.

Definition grid_platform : XlPlatform := {|
  cell_value := fun _ => grid_2x2;
  used_rows := fun _ => 2%nat;
  used_cols := fun _ => 2%nat;
  call_options := fun _ => ∅;
  span_options := fun _ _ => ∅;
  app_range := fun _ => Raise HostError;
  Sheet_init := fun _ => Ok Sheet1;
  Sheet_active := Ok Sheet1;
  address_range := fun _ _ => Raise HostError
|}.

(** A sheet with nothing on it. *)
Definition blank_platform : XlPlatform := {|
  cell_value := fun _ _ _ => VNone;
  used_rows := fun _ => 0%nat;
  used_cols := fun _ => 0%nat;
  call_options := fun _ => ∅;
  span_options := fun _ _ => ∅;
  app_range := fun _ => Raise HostError;
  Sheet_init := fun _ => Ok Sheet1;
  Sheet_active := Ok Sheet1;
  address_range := fun _ _ => Raise HostError
|}.

(** Column A holds 1, 2, 3, the empty string and 5; B1 and B3 hold the
    empty string; every other cell is blank. *)
Definition quoted_cells (r c : Z) : value :=
  if c =? 1 then
    if r =? 4 then VStr "" else if (1 <=? r) && (r <=? 5) then VNum r else VNone
  else if c =? 2 then
    if (r =? 1) || (r =? 3) then VStr "" else VNone
  else VNone.

Definition quoted_platform : XlPlatform := {|
  cell_value := fun _ => quoted_cells;
  used_rows := fun _ => 5%nat;
  used_cols := fun _ => 2%nat;
  call_options := fun _ => ∅;
  span_options := fun _ _ => ∅;
  app_range := fun _ => Raise HostError;
  Sheet_init := fun _ => Ok Sheet1;
  Sheet_active := Ok Sheet1;
  address_range := fun _ _ => Raise HostError
|}.

(** A registry to run the resolver on: [Book1], unsaved, is open in two
    instances, or in three. *)
Definition Book1 (h : xl_handle) : Workbook := mkWorkbook "Book1" "" h.

Definition two_instances : list Application :=
  [mkApplication 100 [Book1 1%nat]; mkApplication 200 [Book1 2%nat]].

Definition three_instances : list Application :=
  two_instances ++ [mkApplication 300 [Book1 3%nat]].

Definition demo_open (app : Application) (path : string) : Workbook :=
  mkWorkbook path path 99%nat.

Definition demo_add (app : Application) : Workbook := mkWorkbook "Book2" "" 98%nat.

Definition demo_launch : Application := mkApplication 1 [mkWorkbook "Book1" "" 97%nat].

(** Sample ranges on [Sheet1]. *)
Definition A1A5 : Range := region Sheet1 1 1 5 1.
Definition A1B2 : Range := region Sheet1 1 1 2 2.
Definition B2C3 : Range := region Sheet1 2 2 2 2.

(** A1:A3 built with the keyword option [ndim=2]. *)
Definition A1A3_ndim : Range :=
  mkRange (mkXl Sheet1 1 1 3 1) {[ "ndim" := VNum 2 ]}.

(** Negative-index normalisation of a slice bound: [l + i] when [i < 0]. *)
Definition normalize (l i : Z) : Z := if i <? 0 then l + i else i.

(** A size argument of [resize] that passes its [assert]: absent, or
    greater than 0. *)
Definition size_accepted (n : option Z) : bool :=
  match n with
  | Some n => 0 <? n
  | None => true
  end.

(** The option bag that [options] builds from the bag [d]. *)
Definition with_convert (d : gmap string value) : gmap string value :=
  <["convert" := default VNone (d !! "convert")]> d.

Definition Sheet2 : Sheet := mkSheet 0%nat "Sheet2".

(** The arguments of [Range(sheet, (1, 1), (3, 3))]. *)
Definition corners_args : list arg :=
  [ASheet Sheet1; ATuple [1; 1]; ATuple [3; 3]].

(** The bounds of a linear slice after [__getitem__] has resolved them:
    an absent start is 0, an absent stop is the element count [l], and a
    negative bound counts from the end. *)
Definition slice_start (l : Z) (a : option Z) : Z :=
  match a with
  | None => 0
  | Some a => normalize l a
  end.

Definition slice_stop (l : Z) (b : option Z) : Z :=
  match b with
  | None => l
  | Some b => normalize l b
  end.

(** The bounds that [__getitem__] lets through. *)
Definition start_in_range (l : Z) (a : option Z) : Prop :=
  match a with
  | None => True
  | Some a => - l <= a < l
  end.

Definition stop_in_range (l : Z) (b : option Z) : Prop :=
  match b with
  | None => True
  | Some b => - l < b <= l
  end.

(** * Properties *)

Lemma rbind_ok {A B} (m : res A) (k : A -> res B) (b : B) :
  rbind m k = Ok b -> exists a, m = Ok a /\ k a = Ok b.
Proof. destruct m as [a|e]; simpl; [eauto | discriminate]. Qed.

(** [len] is the [size] property of the class. *)
Lemma len_size (r : Range) : len r = size r.
Proof. reflexivity. Qed.

Section RangeFacts.

Context {P : XlPlatform}.

Lemma cell_at_ok (sh : Sheet) (r c : Z) :
  1 <= r -> 1 <= c -> cell_at sh r c = Ok (mkXl sh r c 1 1).
Proof.
  intros Hr Hc. unfold cell_at.
  destruct (Z.leb_spec 1 r); [|lia].
  destruct (Z.leb_spec 1 c); [|lia].
  reflexivity.
Qed.

Lemma call2_ok (self : Range) (r c : Z) :
  1 <= row self + r - 1 -> 1 <= column self + c - 1 ->
  call2 self r c =
    Ok (mkRange (mkXl (worksheet self) (row self + r - 1) (column self + c - 1) 1 1)
          (call_options (_options self))).
Proof.
  intros Hr Hc. unfold call2, xl_item2.
  rewrite cell_at_ok by assumption. reflexivity.
Qed.

Lemma Range2_eq (a b : Range) :
  Range2 a b = Ok (mkRange (xl_span (xl a) (xl b)) ∅).
Proof. reflexivity. Qed.

(** The scan moves along its axis only, and never backwards. *)
Lemma scan_axis (fuel : nat) (sh : Sheet) (d : direction) (r c : Z) :
  match d with
  | Down => r <= fst (scan fuel sh d r c) /\ snd (scan fuel sh d r c) = c
  | Right => fst (scan fuel sh d r c) = r /\ c <= snd (scan fuel sh d r c)
  end.
Proof.
  revert r c. induction fuel as [|fuel IH]; intros r c.
  - destruct d; simpl; lia.
  - destruct d; simpl.
    + destruct (is_empty (probe sh (r + 1) c)); simpl; [lia|].
      specialize (IH (r + 1) c). simpl in IH. lia.
    + destruct (is_empty (probe sh r (c + 1))); simpl; [lia|].
      specialize (IH r (c + 1)). simpl in IH. lia.
Qed.

Lemma xl_end_down (x : xl_range) :
  xr_sheet (xl_end Down x) = xr_sheet x /\
  xr_row x <= xr_row (xl_end Down x) /\
  xr_col (xl_end Down x) = xr_col x /\
  xr_rows (xl_end Down x) = 1 /\ xr_cols (xl_end Down x) = 1.
Proof.
  unfold xl_end.
  pose proof (scan_axis (used_rows (xr_sheet x)) (xr_sheet x) Down (xr_row x) (xr_col x)) as H.
  destruct (scan _ _ Down _ _) as [r c]. simpl in *. repeat split; lia.
Qed.

Lemma xl_end_right (x : xl_range) :
  xr_sheet (xl_end Right x) = xr_sheet x /\
  xr_row (xl_end Right x) = xr_row x /\
  xr_col x <= xr_col (xl_end Right x) /\
  xr_rows (xl_end Right x) = 1 /\ xr_cols (xl_end Right x) = 1.
Proof.
  unfold xl_end.
  pose proof (scan_axis (used_cols (xr_sheet x)) (xr_sheet x) Right (xr_row x) (xr_col x)) as H.
  destruct (scan _ _ Right _ _) as [r c]. simpl in *. repeat split; lia.
Qed.

End RangeFacts.

(** The membership test of [raw_value] in the list of [None] and the
    empty string holds of a blank and of the empty string, and of no
    other value. *)
Lemma is_empty_spec (v : value) : is_empty v = true <-> empty_value v.
Proof.
  unfold empty_value. split.
  - destruct v as [|s| |]; simpl; try discriminate.
    + intros _. left. reflexivity.
    + intros H. apply String.eqb_eq in H. subst s. right. reflexivity.
  - intros [-> | ->]; reflexivity.
Qed.

Lemma is_empty_decide (v : value) : is_empty v = bool_decide (empty_value v).
Proof.
  destruct (is_empty v) eqn:E.
  - symmetry. apply bool_decide_eq_true, is_empty_spec, E.
  - symmetry. apply bool_decide_eq_false. intros H.
    apply is_empty_spec in H. congruence.
Qed.

Section Expansion.

Context {P : XlPlatform}.

Lemma raw_value_cell (sh : Sheet) (r c : Z) (o : gmap string value) :
  raw_value (mkRange (mkXl sh r c 1 1) o) = probe sh r c.
Proof. reflexivity. Qed.

Lemma span_cells (sh : Sheet) (r c r' c' : Z) :
  r <= r' -> c <= c' ->
  xl_span (mkXl sh r c 1 1) (mkXl sh r' c' 1 1) =
    mkXl sh r c (r' - r + 1) (c' - c + 1).
Proof.
  intros Hr Hc. unfold xl_span; simpl.
  f_equal; lia.
Qed.

Lemma vertical_growth (self : Range) :
  well_formed self ->
  vertical self =
    Ok (region (worksheet self) (row self) (column self)
          (growth (worksheet self) Down (row self) (column self))
          (column_count self)).
Proof.
  intros (Hr & Hc & Hn & Hm).
  unfold vertical, growth, empty_out, out, jump.
  rewrite <- !is_empty_decide.
  rewrite !call2_ok by lia. simpl rbind.
  rewrite !raw_value_cell.
  replace (row self + 2 - 1) with (row self + 1) by lia.
  replace (row self + 3 - 1) with (row self + 2) by lia.
  replace (column self + 1 - 1) with (column self) by lia.
  destruct (is_empty (probe (worksheet self) (row self + 1) (column self))).
  - rewrite Range2_eq. simpl xl. rewrite span_cells by lia.
    unfold region. do 2 f_equal. f_equal; lia.
  - destruct (is_empty (probe (worksheet self) (row self + 2) (column self))).
    + rewrite Range2_eq. simpl xl. rewrite span_cells by lia.
      unfold region. do 2 f_equal. f_equal; lia.
    + change (row (end_ (mkRange ?x ?o) Down)) with (xr_row (xl_end Down x)).
      pose proof (xl_end_down (mkXl (worksheet self) (row self + 1) (column self) 1 1))
        as (_ & Hge & _). cbn [xr_row] in Hge.
      rewrite !call2_ok by lia.
      simpl rbind. rewrite Range2_eq. simpl xl. rewrite span_cells by lia.
      unfold region. do 2 f_equal. f_equal; lia.
Qed.

Lemma horizontal_growth (self : Range) :
  well_formed self ->
  horizontal self =
    Ok (region (worksheet self) (row self) (column self)
          (row_count self)
          (growth (worksheet self) Right (row self) (column self))).
Proof.
  intros (Hr & Hc & Hn & Hm).
  unfold horizontal, growth, empty_out, out, jump.
  rewrite <- !is_empty_decide.
  rewrite !call2_ok by lia. simpl rbind.
  rewrite !raw_value_cell.
  replace (column self + 2 - 1) with (column self + 1) by lia.
  replace (column self + 3 - 1) with (column self + 2) by lia.
  replace (row self + 1 - 1) with (row self) by lia.
  destruct (is_empty (probe (worksheet self) (row self) (column self + 1))).
  - rewrite Range2_eq. simpl xl. rewrite span_cells by lia.
    unfold region. do 2 f_equal. f_equal; lia.
  - destruct (is_empty (probe (worksheet self) (row self) (column self + 2))).
    + rewrite Range2_eq. simpl xl. rewrite span_cells by lia.
      unfold region. do 2 f_equal. f_equal; lia.
    + change (column (end_ (mkRange ?x ?o) Right)) with (xr_col (xl_end Right x)).
      pose proof (xl_end_right (mkXl (worksheet self) (row self) (column self + 1) 1 1))
        as (_ & _ & Hge & _). cbn [xr_col] in Hge.
      rewrite !call2_ok by lia.
      simpl rbind. rewrite Range2_eq. simpl xl. rewrite span_cells by lia.
      unfold region. do 2 f_equal. f_equal; lia.
Qed.

Lemma call2_origin (self : Range) :
  well_formed self ->
  call2 self 1 1 =
    Ok (mkRange (mkXl (worksheet self) (row self) (column self) 1 1)
          (call_options (_options self))).
Proof.
  intros (Hr & Hc & _). rewrite call2_ok by lia.
  do 2 f_equal. f_equal; lia.
Qed.

(** The corner that [table] finds along one axis, from the origin cell. *)
Lemma table_growth (self : Range) :
  well_formed self ->
  table self =
    Ok (region (worksheet self) (row self) (column self)
          (growth (worksheet self) Down (row self) (column self))
          (growth (worksheet self) Right (row self) (column self))).
Proof.
  intros Hwf. pose proof Hwf as (Hr & Hc & Hn & Hm).
  unfold table. rewrite call2_origin by assumption. simpl rbind.
  set (o := call_options (_options self)).
  set (sh := worksheet self) in *. set (r := row self) in *.
  set (c := column self) in *.
  assert (Hcall : forall i j, 1 <= i -> 1 <= j ->
            call2 (mkRange (mkXl sh r c 1 1) o) i j =
              Ok (mkRange (mkXl sh (r + i - 1) (c + j - 1) 1 1) (call_options o))).
  { intros i j Hi Hj. rewrite call2_ok; [reflexivity | cbn; lia | cbn; lia]. }
  rewrite !Hcall by lia. simpl rbind. rewrite !raw_value_cell.
  unfold growth, empty_out, out, jump.
  rewrite <- !is_empty_decide.
  replace (r + 2 - 1) with (r + 1) by lia.
  replace (r + 3 - 1) with (r + 2) by lia.
  replace (c + 2 - 1) with (c + 1) by lia.
  replace (c + 3 - 1) with (c + 2) by lia.
  replace (r + 1 - 1) with r by lia.
  replace (c + 1 - 1) with c by lia.
  unfold end_. cbn [xl].
  pose proof (xl_end_down (mkXl sh (r + 1) c 1 1)) as (Hs & Hrow & Hcol & Hn1 & Hm1).
  pose proof (xl_end_right (mkXl sh r (c + 1) 1 1)) as (Hs' & Hrow' & Hcol' & Hn1' & Hm1').
  cbn [xr_sheet xr_row xr_col] in *.
  set (ed := xl_end Down (mkXl sh (r + 1) c 1 1)) in *.
  set (er := xl_end Right (mkXl sh r (c + 1) 1 1)) in *.
  clearbody ed er.
  destruct ed as [sd rd cd nd md], er as [sr rr cr nr mr].
  cbn [xr_sheet xr_row xr_col xr_rows xr_cols] in *. subst.
  destruct (is_empty (probe sh (r + 1) c)), (is_empty (probe sh (r + 2) c)),
    (is_empty (probe sh r (c + 1))), (is_empty (probe sh r (c + 2)));
    simpl rbind; rewrite Range2_eq; unfold xl_span, region;
    cbn [xl xr_sheet xr_row xr_col xr_rows xr_cols];
    do 2 f_equal; f_equal; lia.
Qed.


Lemma probe_below_extent (sh : Sheet) (r c : Z) :
  Z.of_nat (used_rows sh) < r -> probe sh r c = VNone.
Proof.
  intros H. unfold probe.
  destruct (Z.leb_spec r (Z.of_nat (used_rows sh))); [lia|].
  rewrite andb_false_r. reflexivity.
Qed.

Lemma probe_right_of_extent (sh : Sheet) (r c : Z) :
  Z.of_nat (used_cols sh) < c -> probe sh r c = VNone.
Proof.
  intros H. unfold probe.
  destruct (Z.leb_spec c (Z.of_nat (used_cols sh))); [lia|].
  rewrite andb_false_r. reflexivity.
Qed.

Lemma empty_out_true (sh : Sheet) (d : direction) (r c k : Z) :
  empty_out sh d r c k = true <-> empty_at sh d r c k.
Proof.
  unfold empty_out, empty_at. destruct (out d r c k) as [r' c'].
  apply bool_decide_eq_true.
Qed.

Lemma empty_out_false (sh : Sheet) (d : direction) (r c k : Z) :
  empty_out sh d r c k = false <-> ~ empty_at sh d r c k.
Proof.
  unfold empty_out, empty_at. destruct (out d r c k) as [r' c'].
  apply bool_decide_eq_false.
Qed.

(** With fuel for the rest of the used extent, the scan stops on the last
    cell of the run: the [n] cells it passed are not empty and the next
    one is. *)
Lemma scan_run (fuel : nat) (sh : Sheet) (d : direction) (r c : Z) :
  Z.of_nat (extent sh d) - (match d with Down => r | Right => c end)
    <= Z.of_nat fuel ->
  exists n, 0 <= n /\ scan fuel sh d r c = out d r c n /\
    (forall k, 0 < k <= n -> ~ empty_at sh d r c k) /\
    empty_at sh d r c (n + 1).
Proof.
  revert r c. induction fuel as [|fuel IH]; intros r c Hfuel.
  - exists 0. split; [lia|]. split.
    + destruct d; simpl; f_equal; lia.
    + split; [intros k Hk; lia|].
      unfold empty_at. destruct d; simpl in *.
      * rewrite probe_below_extent by lia. left. reflexivity.
      * rewrite probe_right_of_extent by lia. left. reflexivity.
  - destruct d; simpl in *.
    + destruct (is_empty (probe sh (r + 1) c)) eqn:Hb.
      * exists 0. split; [lia|]. split; [f_equal; lia|].
        split; [intros k Hk; lia|].
        unfold empty_at. simpl. replace (r + (0 + 1)) with (r + 1) by lia.
        apply is_empty_spec, Hb.
      * destruct (IH (r + 1) c) as (n & Hn & Hs & Hrun & Hstop); [lia|].
        exists (n + 1). split; [lia|]. split.
        { rewrite Hs. simpl. f_equal; lia. }
        split.
        { intros k Hk. destruct (Z.eq_dec k 1) as [->|Hne].
          - unfold empty_at. simpl. intros He. apply is_empty_spec in He. congruence.
          - specialize (Hrun (k - 1) ltac:(lia)). unfold empty_at in *. simpl in *.
            replace (r + k) with (r + 1 + (k - 1)) by lia. exact Hrun. }
        unfold empty_at in *. simpl in *.
        replace (r + (n + 1 + 1)) with (r + 1 + (n + 1)) by lia. exact Hstop.
    + destruct (is_empty (probe sh r (c + 1))) eqn:Hb.
      * exists 0. split; [lia|]. split; [f_equal; lia|].
        split; [intros k Hk; lia|].
        unfold empty_at. simpl. replace (c + (0 + 1)) with (c + 1) by lia.
        apply is_empty_spec, Hb.
      * destruct (IH r (c + 1)) as (n & Hn & Hs & Hrun & Hstop); [lia|].
        exists (n + 1). split; [lia|]. split.
        { rewrite Hs. simpl. f_equal; lia. }
        split.
        { intros k Hk. destruct (Z.eq_dec k 1) as [->|Hne].
          - unfold empty_at. simpl. intros He. apply is_empty_spec in He. congruence.
          - specialize (Hrun (k - 1) ltac:(lia)). unfold empty_at in *. simpl in *.
            replace (c + k) with (c + 1 + (k - 1)) by lia. exact Hrun. }
        unfold empty_at in *. simpl in *.
        replace (c + (n + 1 + 1)) with (c + 1 + (n + 1)) by lia. exact Hstop.
Qed.

(** The jump lands on the last cell of the contiguous run of non-empty
    cells that starts at [(r, c)]. *)
Lemma jump_last_contiguous (sh : Sheet) (d : direction) (r c : Z) :
  0 <= r -> 0 <= c ->
  let start := match d with Down => r | Right => c end in
  start <= jump sh d r c /\
  (forall k, 0 < k <= jump sh d r c - start -> ~ empty_at sh d r c k) /\
  empty_at sh d r c (jump sh d r c - start + 1).
Proof.
  intros Hr Hc start. unfold jump, xl_end. cbn [xr_sheet xr_row xr_col].
  destruct (scan_run (extent sh d) sh d r c) as (n & Hn & Hs & Hrun & Hstop).
  { destruct d; simpl; lia. }
  change (match d with Down => used_rows sh | Right => used_cols sh end)
    with (extent sh d).
  rewrite Hs. subst start.
  destruct d; simpl; cbn [xr_row xr_col].
  - replace (r + n - r) with n by lia. split; [lia|]. split; assumption.
  - replace (c + n - c) with n by lia. split; [lia|]. split; assumption.
Qed.

(** The three cases of the growth, with the run that the jump covers. *)
Lemma growth_cases (sh : Sheet) (d : direction) (r c : Z) :
  0 <= r -> 0 <= c ->
  (empty_at sh d r c 1 -> growth sh d r c = 1) /\
  (~ empty_at sh d r c 1 -> empty_at sh d r c 2 -> growth sh d r c = 2) /\
  (~ empty_at sh d r c 1 -> ~ empty_at sh d r c 2 ->
     3 <= growth sh d r c /\
     (forall k, 1 <= k < growth sh d r c -> ~ empty_at sh d r c k) /\
     empty_at sh d r c (growth sh d r c)).
Proof.
  intros Hr Hc. unfold growth.
  split; [intros H; apply empty_out_true in H; rewrite H; reflexivity|].
  split.
  { intros H1 H2. apply empty_out_false in H1. apply empty_out_true in H2.
    rewrite H1, H2. reflexivity. }
  intros H1 H2.
  rewrite (proj2 (empty_out_false sh d r c 1) H1).
  rewrite (proj2 (empty_out_false sh d r c 2) H2).
  destruct d; cbn [out] in *.
  - destruct (jump_last_contiguous sh Down (r + 1) c) as (Hge & Hrun & Hstop); [lia..|].
    cbn zeta in *. set (e := jump sh Down (r + 1) c) in *.
    unfold empty_at in *. cbn [out] in *.
    assert (r + 2 <= e) as He.
    { destruct (Z.eq_dec e (r + 1)) as [Heq|Hne]; [|lia].
      rewrite Heq in Hstop. replace (r + 1 + (r + 1 - (r + 1) + 1)) with (r + 2) in Hstop by lia.
      contradiction. }
    split; [lia|]. split.
    + intros k Hk. destruct (Z.eq_dec k 1) as [->|Hne]; [exact H1|].
      specialize (Hrun (k - 1) ltac:(lia)).
      replace (r + 1 + (k - 1)) with (r + k) in Hrun by lia. exact Hrun.
    + replace (r + (e - r + 1)) with (r + 1 + (e - (r + 1) + 1)) by lia. exact Hstop.
  - destruct (jump_last_contiguous sh Right r (c + 1)) as (Hge & Hrun & Hstop); [lia..|].
    cbn zeta in *. set (e := jump sh Right r (c + 1)) in *.
    unfold empty_at in *. cbn [out] in *.
    assert (c + 2 <= e) as He.
    { destruct (Z.eq_dec e (c + 1)) as [Heq|Hne]; [|lia].
      rewrite Heq in Hstop. replace (c + 1 + (c + 1 - (c + 1) + 1)) with (c + 2) in Hstop by lia.
      contradiction. }
    split; [lia|]. split.
    + intros k Hk. destruct (Z.eq_dec k 1) as [->|Hne]; [exact H1|].
      specialize (Hrun (k - 1) ltac:(lia)).
      replace (c + 1 + (k - 1)) with (c + k) in Hrun by lia. exact Hrun.
    + replace (c + (e - c + 1)) with (c + 1 + (e - (c + 1) + 1)) by lia. exact Hstop.
Qed.


(** C8: when the cell below and the cell to the right of the anchor are
    both empty, each of them blank or holding the empty string, [table]
    raises nothing and returns the anchor cell alone. *)
Theorem table_single_cell (self : Range) :
  well_formed self ->
  empty_value (probe (worksheet self) (row self + 1) (column self)) ->
  empty_value (probe (worksheet self) (row self) (column self + 1)) ->
  table self = Ok (cell (worksheet self) (row self) (column self)).
Proof.
  intros Hwf Hdown Hright. rewrite table_growth by assumption.
  unfold growth, empty_out, out.
  rewrite !bool_decide_eq_true_2 by assumption. reflexivity.
Qed.

End Expansion.


(** On a sheet with nothing on it, [table] from B3 is B3.  On the sheet
    with the empty string in A4 and in B3, [table] from A3 is A3. *)
Lemma table_single_cell_witness :
  @table blank_platform (cell Sheet1 3 2) = Ok (cell Sheet1 3 2) /\
  @table quoted_platform (cell Sheet1 3 1) = Ok (cell Sheet1 3 1).
Proof.
  split.
  - apply (@table_single_cell blank_platform (cell Sheet1 3 2)).
    + repeat split; discriminate.
    + left. reflexivity.
    + left. reflexivity.
  - apply (@table_single_cell quoted_platform (cell Sheet1 3 1)).
    + repeat split; discriminate.
    + right. reflexivity.
    + right. reflexivity.
Defined.

Section Indexing.

Context {P : XlPlatform}.

(** C2: a tuple form of [Range(...)] with a coordinate equal to 0 in any of
    its tuples raises the zero-based [IndexError]; no [Range] is built. *)
Theorem zero_coordinate_rejected (args : list arg) (options : gmap string value) :
  tuple_form args = true ->
  existsb zero_in args = true ->
  Range_init args None options = Raise (IndexError msg_zero_based).
Proof.
  intros Hform Hzero.
  destruct args as [|a [|b [|c [|d l]]]]; try discriminate.
  - destruct a; try discriminate.
    unfold Range_init. simpl in *. rewrite Hzero. reflexivity.
  - destruct b; try (destruct a; discriminate).
    destruct a; try discriminate; unfold Range_init; simpl in *;
      rewrite Hzero; reflexivity.
  - destruct c; try (destruct a, b; discriminate).
    destruct b; try (destruct a; discriminate).
    destruct a; try discriminate; unfold Range_init; simpl in *;
      rewrite Hzero; reflexivity.
  - destruct a, b, c; discriminate.
Qed.

Lemma call1_ok (self : Range) (i : Z) :
  1 <= row self + (i - 1) / column_count self ->
  1 <= column self + (i - 1) mod column_count self ->
  call1 self i =
    Ok (mkRange (mkXl (worksheet self)
                   (row self + (i - 1) / column_count self)
                   (column self + (i - 1) mod column_count self) 1 1)
          (call_options (_options self))).
Proof.
  intros Hr Hc. unfold call1, xl_item1.
  rewrite cell_at_ok by assumption. reflexivity.
Qed.

(** Inside a well-formed range, position [i + 1] of the row-major
    traversal is the cell [i / columns] rows down and [i mod columns]
    columns right of the top-left corner. *)
Lemma call1_row_major (self : Range) (i : Z) :
  well_formed self -> 0 <= i ->
  call1 self (i + 1) =
    Ok (mkRange (mkXl (worksheet self)
                   (row self + i / column_count self)
                   (column self + i mod column_count self) 1 1)
          (call_options (_options self))).
Proof.
  intros (Hr & Hc & Hn & Hm) Hi.
  replace i with (i + 1 - 1) at 2 3 by lia.
  apply call1_ok; replace (i + 1 - 1) with i by lia.
  - pose proof (Z.div_pos i (column_count self)). lia.
  - pose proof (Z.mod_pos_bound i (column_count self)). lia.
Qed.

(** C4: for [0 <= i < count], [self[i]] and [self[-(count - i)]] are the
    same cell, the one at position [i] of the row-major traversal; an
    index with [count <= index] or [index < -count] raises the
    [IndexError] whose message names the index and the element count. *)
Theorem linear_index (self : Range) :
  (forall i, 0 <= i < len self ->
     getitem self (KInt (- (len self - i))) = getitem self (KInt i) /\
     getitem self (KInt i) = call1 self (i + 1) /\
     (well_formed self ->
      getitem self (KInt i) =
        Ok (mkRange (mkXl (worksheet self)
                       (row self + i / column_count self)
                       (column self + i mod column_count self) 1 1)
              (call_options (_options self))))) /\
  (forall index, len self <= index \/ index < - len self ->
     getitem self (KInt index) =
       Raise (IndexError
                ("Index " +:+ pretty index +:+ " out of range ("
                 +:+ pretty (len self) +:+ " elements)."))).
Proof.
  split.
  - intros i Hi.
    assert (Hpos : getitem self (KInt i) = call1 self (i + 1)).
    { unfold getitem.
      destruct (Z.geb_spec i (len self)); [lia|].
      destruct (Z.ltb_spec i 0); [lia|]. reflexivity. }
    split; [|split].
    + rewrite Hpos. unfold getitem.
      destruct (Z.geb_spec (- (len self - i)) (len self)); [lia|].
      destruct (Z.ltb_spec (- (len self - i)) 0); [|lia].
      destruct (Z.ltb_spec (- (len self - i)) (- len self)); [lia|].
      f_equal. lia.
    + exact Hpos.
    + intros Hwf. rewrite Hpos. apply call1_row_major; [assumption|lia].
  - intros index Hoob. unfold getitem, msg_range.
    destruct (Z.geb_spec index (len self)); [reflexivity|].
    destruct (Z.ltb_spec index 0); [|lia].
    destruct (Z.ltb_spec index (- len self)); [reflexivity|lia].
Qed.

Lemma call1_not_step (self : Range) (i : Z) :
  call1 self i <> Raise (ValueError msg_steps).
Proof.
  unfold call1, xl_item1, cell_at.
  destruct (_ && _)%bool; simpl; discriminate.
Qed.

Lemma call2_not_step (self : Range) (r c : Z) :
  call2 self r c <> Raise (ValueError msg_steps).
Proof.
  unfold call2, xl_item2, cell_at.
  destruct (_ && _)%bool; simpl; discriminate.
Qed.

Lemma call2_cases (self : Range) (r c : Z) :
  (exists x, call2 self r c = Ok x) \/ call2 self r c = Raise HostError.
Proof.
  unfold call2, xl_item2, cell_at.
  destruct (_ && _)%bool; simpl; eauto.
Qed.

Lemma call1_cases (self : Range) (i : Z) :
  (exists x, call1 self i = Ok x) \/ call1 self i = Raise HostError.
Proof.
  unfold call1, xl_item1, cell_at.
  destruct (_ && _)%bool; simpl; eauto.
Qed.

(** C10: indexing raises [ValueError("Slice steps not supported.")]
    exactly when the key holds a slice whose step is given, whatever its
    value: in the linear form and on either axis of the tuple form. *)
Theorem slice_step_rejected (self : Range) (k : key) :
  getitem self k = Raise (ValueError msg_steps) <-> has_step k = true.
Proof.
  destruct k as [r c | s | z]; simpl.
  - destruct r as [zr | [ra rb [rs|]]], c as [zc | [ca cb [cs|]]]; simpl;
      try (split; [reflexivity | reflexivity]);
      try (split; [intros _; reflexivity | intros _; reflexivity]).
    all: split; [|discriminate]; intros H; exfalso; revert H.
    all: match goal with
         | |- context [if ?b then _ else _] => destruct b
         end.
    all: repeat match goal with
         | |- context [call2 ?s ?i ?j] =>
             destruct (call2_cases s i j) as [[? ->] | ->]; simpl
         end; discriminate.
  - destruct s as [a b [st|]]; simpl.
    + split; reflexivity.
    + split; [|discriminate]. intros H. exfalso. revert H.
      destruct a as [a|], b as [b|]; simpl;
        repeat match goal with
        | |- context [if ?b then _ else _] => destruct b; simpl
        end; try discriminate.
      all: repeat match goal with
           | |- context [call1 ?s ?i] =>
               destruct (call1_cases s i) as [[? ->] | ->]; simpl
           end; discriminate.
  - split; [|discriminate]. intros H. exfalso. revert H.
    repeat match goal with
    | |- context [if ?b then _ else _] => destruct b; simpl
    end; try discriminate; apply call1_not_step.
Qed.

End Indexing.

Lemma zero_coordinate_rejected_witness :
  @Range_init grid_platform [ASheet Sheet1; ATuple [1; 1]; ATuple [3; 0]] None ∅
    = Raise (IndexError msg_zero_based).
Proof.
  apply (@zero_coordinate_rejected grid_platform); reflexivity.
Defined.

(** In A1:B2, [self[1]] and [self[-3]] are both B1, and [self[4]] is out
    of range. *)
Lemma linear_index_witness :
  (0 <= 1 < len A1B2) /\
  @getitem grid_platform A1B2 (KInt (- (len A1B2 - 1))) =
    @getitem grid_platform A1B2 (KInt 1) /\
  @getitem grid_platform A1B2 (KInt 1) = Ok (cell Sheet1 1 2) /\
  @getitem grid_platform A1B2 (KInt 4) =
    Raise (IndexError "Index 4 out of range (4 elements).").
Proof.
  assert (Hi : 0 <= 1 < len A1B2) by (split; [discriminate | reflexivity]).
  assert (Hwf : well_formed A1B2) by (repeat split; discriminate).
  destruct (@linear_index grid_platform A1B2) as [Hin Hout].
  destruct (Hin 1 Hi) as (Hneg & _ & Hcell).
  split; [exact Hi|]. split; [exact Hneg|]. split.
  - exact (Hcell Hwf).
  - apply (Hout 4). left. discriminate.
Defined.

Section Slicing.

Context {P : XlPlatform}.

(** Every range that a linear slice returns is built by [Range(a, b)]
    without keywords: its option bag is empty. *)
Lemma slice_options_empty (self : Range) (s : slice) (r : Range) :
  getitem self (KSlice s) = Ok r -> _options r = ∅.
Proof.
  unfold getitem. destruct (step s); [discriminate|].
  intros H.
  apply rbind_ok in H as (a' & _ & H).
  apply rbind_ok in H as (b' & _ & H).
  apply rbind_ok in H as (ca & _ & H).
  apply rbind_ok in H as (cb & _ & H).
  rewrite Range2_eq in H. injection H as <-. reflexivity.
Qed.

(** In the tuple form with two integers, the indices are offsets from the
    top-left corner: no index is counted from the end and none is checked
    against the extent of the range. *)
Lemma tuple_index_offset (self : Range) (i j : Z) :
  getitem self (KTuple (IInt i) (IInt j)) = call2 self (i + 1) (j + 1).
Proof.
  unfold getitem, axis. cbn [rbind]. rewrite !Z.eqb_refl. reflexivity.
Qed.

Lemma options_kw_bag (r : Range) (d : gmap string value) :
  options_kw r d =
    Ok (mkRange (xl r) (<["convert" := default VNone (d !! "convert")]> d)).
Proof.
  unfold options_kw, Range_options, Range_init. cbn [rbind].
  rewrite insert_delete_eq. reflexivity.
Qed.

(** [resize] and [offset] hand the option bag of the receiver to the
    result through [options]: every option is kept, and [convert] is set
    to [None] when the bag has none. *)
Lemma resize_options (self r : Range) (rs cs : option Z) :
  resize self rs cs = Ok r ->
  _options r =
    <["convert" := default VNone (_options self !! "convert")]> (_options self).
Proof.
  unfold resize. intros H.
  apply rbind_ok in H as (n & _ & H).
  apply rbind_ok in H as (m & _ & H).
  apply rbind_ok in H as (a & _ & H).
  apply rbind_ok in H as (b & _ & H).
  apply rbind_ok in H as (r0 & _ & H).
  rewrite options_kw_bag in H. injection H as <-. reflexivity.
Qed.

Lemma offset_options (self r : Range) (ro co : Z) :
  offset self ro co = Ok r ->
  _options r =
    <["convert" := default VNone (_options self !! "convert")]> (_options self).
Proof.
  unfold offset. intros H.
  apply rbind_ok in H as (a & _ & H).
  apply rbind_ok in H as (b & _ & H).
  apply rbind_ok in H as (r0 & _ & H).
  rewrite options_kw_bag in H. injection H as <-. reflexivity.
Qed.

Lemma convert_bag_kept (d : gmap string value) (k : string) (v : value) :
  d !! k = Some v ->
  <["convert" := default VNone (d !! "convert")]> d !! k = Some v.
Proof.
  intros Hk. destruct (decide (k = "convert")) as [->|Hne].
  - rewrite lookup_insert_eq, Hk. reflexivity.
  - rewrite lookup_insert_ne by congruence. exact Hk.
Qed.

End Slicing.

(** C5: in A1:A5 the slice [3:1] has both bounds in range and its stop
    below its start; [__getitem__] checks each bound against the length
    and never one against the other, and returns the rectangle spanned
    by the cells at positions 3 and 0, A1:A4, four cells, where an empty
    selection is claimed. *)
Lemma reversed_slice_not_empty :
  @getitem grid_platform A1A5 (KSlice (mkSlice (Some 3) (Some 1) None))
    = Ok (region Sheet1 1 1 4 1) /\
  ~ (exists r, @getitem grid_platform A1A5 (KSlice (mkSlice (Some 3) (Some 1) None)) = Ok r
               /\ len r = 0).
Proof.
  split; [reflexivity|].
  intros (r & Hr & Hlen).
  change (Ok (region Sheet1 1 1 4 1) = Ok r) in Hr.
  injection Hr as <-. discriminate Hlen.
Qed.

(** C6: in B2:C3 the key [(-1, -1)] is A1, not the last cell C3, and the
    key [(5, 5)], outside the 2 x 2 range, is G7 and raises nothing. *)
Theorem tuple_index_unchecked :
  @getitem grid_platform B2C3 (KTuple (IInt (-1)) (IInt (-1))) = Ok (cell Sheet1 1 1) /\
  @getitem grid_platform B2C3 (KTuple (IInt 5) (IInt 5)) = Ok (cell Sheet1 7 7).
Proof. split; reflexivity. Qed.

(** C7: the slice [0:2] of A1:A3 built with [ndim=2] is A1:A2 with an
    empty option bag. *)
Theorem slice_drops_options :
  _options A1A3_ndim = {[ "ndim" := VNum 2 ]} /\
  @getitem grid_platform A1A3_ndim (KSlice (mkSlice (Some 0) (Some 2) None))
    = Ok (mkRange (mkXl Sheet1 1 1 2 1) ∅) /\
  (∅ : gmap string value) <> {[ "ndim" := VNum 2 ]}.
Proof.
  split; [reflexivity|]. split; [reflexivity|].
  intros H. apply (f_equal (fun m : gmap string value => m !! "ndim")) in H.
  rewrite lookup_empty, lookup_singleton_eq in H. discriminate.
Qed.

Section Resolution.

Context {L : StrLower}.

Variable isfile : string -> bool.
Variable wbs_open : Application -> string -> Workbook.
Variable wbs_add : Application -> Workbook.
Variable launch : Application.

Abbreviation resolve := (Workbook_init isfile wbs_open wbs_add launch).

(** What resolution does with an identifier while an instance is running:
    a single match is returned, several matches are refused, and without
    a match the lower-cased identifier is opened in the active instance
    when it is a file, and refused when it is not. *)
Lemma resolve_cases (applications : list Application) (app : Application)
    (id : string) :
  id <> "" ->
  Applications_active applications = Some app ->
  match candidates applications (lower id) with
  | [] =>
      if isfile (lower id)
      then resolve applications (Some id) None
             = Ok (wb_xl (wbs_open app (lower id)))
      else resolve applications (Some id) None
             = Raise (Exception (msg_connect (lower id)))
  | [(_, wb)] => resolve applications (Some id) None = Ok (wb_xl wb)
  | _ :: _ :: _ =>
      resolve applications (Some id) None
        = Raise (Exception (msg_many (lower id)))
  end.
Proof.
  intros Hid Hact. unfold Workbook_init, truthy.
  assert (String.eqb id "" = false) as -> by (apply String.eqb_neq; exact Hid).
  cbn [negb from_option Datatypes.id]. rewrite Hact.
  destruct (candidates applications (lower id)) as [|[a wb] [|c l]]; cbn.
  - destruct (isfile (lower id)); reflexivity.
  - reflexivity.
  - reflexivity.
Qed.

(** C9, amended: the two refusals of the resolver carry a message built
    from the lower-cased identifier and from nothing else; in particular
    the message for several matches does not depend on their number. *)
Theorem resolution_failure_names_identifier (applications : list Application)
    (id : string) (msg : string) :
  id <> "" ->
  resolve applications (Some id) None = Raise (Exception msg) ->
  (candidates applications (lower id) = [] /\
   msg = "Could not connect to workbook '" +:+ lower id +:+ "'") \/
  ((1 < length (candidates applications (lower id)))%nat /\
   msg = "Workbook '" +:+ lower id +:+ "' is open in more than one Excel instance.").
Proof.
  intros Hid. unfold Workbook_init, truthy.
  assert (String.eqb id "" = false) as -> by (apply String.eqb_neq; exact Hid).
  cbn [negb from_option Datatypes.id].
  destruct (candidates applications (lower id)) as [|[a wb] [|c l]]; cbn.
  - destruct (isfile (lower id)).
    + destruct (Applications_active applications); discriminate.
    + intros [= <-]. left. split; reflexivity.
  - discriminate.
  - intros [= <-]. right. split; [lia | reflexivity].
Qed.

End Resolution.

(** C1: with no instance running, an identifier that matches no open
    workbook and is a file on disk is not opened: the attribute access on
    the missing active application fails.  The branch that creates a new
    workbook starts an instance in the same situation. *)
Theorem resolve_file_without_instance :
  candidates [] "book.xlsx" = [] /\
  Workbook_init (fun _ => true) demo_open demo_add demo_launch
      [] (Some "book.xlsx") None
    = Raise (AttributeError "'NoneType' object has no attribute 'workbooks'") /\
  Workbook_init (fun _ => true) demo_open demo_add demo_launch [] None None
    = Ok 97%nat.
Proof. repeat split. Qed.

(** C9, as stated, fails: with [Book1] open in two instances and in three
    the error is the same, so no reading of the error gives the number
    of matches. *)
Lemma ambiguity_count_not_reported :
  length (candidates two_instances "book1") = 2%nat /\
  length (candidates three_instances "book1") = 3%nat /\
  Workbook_init (fun _ => false) demo_open demo_add demo_launch
      two_instances (Some "Book1") None
    = Raise (Exception "Workbook 'book1' is open in more than one Excel instance.") /\
  Workbook_init (fun _ => false) demo_open demo_add demo_launch
      three_instances (Some "Book1") None
    = Raise (Exception "Workbook 'book1' is open in more than one Excel instance.") /\
  ~ (exists count : exn -> nat,
       forall (applications : list Application) (id : string) (e : exn),
         Workbook_init (fun _ => false) demo_open demo_add demo_launch
             applications (Some id) None = Raise e ->
         (1 < length (candidates applications (lower id)))%nat ->
         count e = length (candidates applications (lower id))).
Proof.
  split; [reflexivity|]. split; [reflexivity|].
  split; [reflexivity|]. split; [reflexivity|].
  intros (count & Hcount).
  pose proof (Hcount two_instances "Book1" _ eq_refl) as H2.
  pose proof (Hcount three_instances "Book1" _ eq_refl) as H3.
  specialize (H2 ltac:(vm_compute; lia)).
  specialize (H3 ltac:(vm_compute; lia)).
  vm_compute in H2, H3. congruence.
Qed.

Lemma resolution_failure_names_identifier_witness :
  (candidates two_instances (lower "Book1") = [] /\
   "Workbook 'book1' is open in more than one Excel instance."
     = "Could not connect to workbook '" +:+ lower "Book1" +:+ "'") \/
  ((1 < length (candidates two_instances (lower "Book1")))%nat /\
   "Workbook 'book1' is open in more than one Excel instance."
     = "Workbook '" +:+ lower "Book1" +:+ "' is open in more than one Excel instance.").
Proof.
  apply (resolution_failure_names_identifier (fun _ => false)
           demo_open demo_add demo_launch two_instances "Book1").
  - discriminate.
  - reflexivity.
Defined.

(** * Further properties *)

Lemma find_filter_head {A} (f : A -> bool) (l : list A) :
  List.find f l = head (filter (fun x => f x = true) l).
Proof.
  induction l as [|a l IH]; simpl; [reflexivity|].
  rewrite filter_cons. destruct (f a) eqn:Hf.
  - destruct (decide (true = true)) as [_|Hn]; [reflexivity | congruence].
  - destruct (decide (false = true)) as [Hn|_]; [discriminate | exact IH].
Qed.

Section OtherResolver.

Context {L : StrLower}.

Variable isfile : string -> bool.
Variable wbs_open : Application -> string -> Workbook.
Variable wbs_add : Application -> Workbook.
Variable launch : Application.

(** X1: resolution reads an identifier through its truth value and its
    lower-casing only: two identifiers with the same lower-casing, both
    empty or both not, give the same result, the file test and the error
    message included. *)
Theorem resolve_case_insensitive (applications : list Application)
    (a b : string) (xl0 : option xl_handle) :
  (a = "" <-> b = "") ->
  lower a = lower b ->
  Workbook_init isfile wbs_open wbs_add launch applications (Some a) xl0 =
  Workbook_init isfile wbs_open wbs_add launch applications (Some b) xl0.
Proof.
  intros Hab H. unfold Workbook_init, truthy.
  assert (String.eqb a "" = String.eqb b "") as ->.
  { destruct (String.eqb_spec a ""), (String.eqb_spec b ""); tauto. }
  cbn [from_option Datatypes.id].
  rewrite H. reflexivity.
Qed.

(** X2: [Application.workbook] returns the first workbook of the
    application that matches the identifier by name or by full name,
    without looking at the file system. *)
Theorem application_workbook_first_match (self : Application) (id : string)
    (pre post : list Workbook) (wb : Workbook) :
  id <> "" ->
  workbooks self = (pre ++ wb :: post)%list ->
  (forall w, In w pre -> wb_matches (lower id) w = false) ->
  wb_matches (lower id) wb = true ->
  Application_workbook isfile wbs_open wbs_add self (Some id) = Ok wb.
Proof.
  intros Hid Hsplit Hpre Hwb. unfold Application_workbook, truthy.
  assert (String.eqb id "" = false) as -> by (apply String.eqb_neq; exact Hid).
  cbn [negb from_option Datatypes.id]. rewrite Hsplit.
  assert (List.find (wb_matches (lower id)) (pre ++ wb :: post)%list = Some wb) as ->.
  { clear Hsplit. induction pre as [|w pre IH]; simpl.
    - rewrite Hwb. reflexivity.
    - rewrite (Hpre w (or_introl eq_refl)). apply IH.
      intros w' Hw'. apply Hpre. right. exact Hw'. }
  reflexivity.
Qed.

Lemma candidates_single (self : Application) (fullname : string) :
  candidates [self] fullname =
    map (fun wb => (self, wb))
      (filter (fun wb => wb_matches fullname wb = true) (workbooks self)).
Proof. simpl. apply app_nil_r. Qed.

(** X3: with a single application running, [Workbook(fullname)] binds to
    the workbook that [app.workbook(fullname)] returns, and fails as it
    fails, as long as at most one workbook matches; with several matches
    [Workbook] refuses and [app.workbook] returns the first. *)
Theorem workbook_agrees_with_application (self : Application) (id : string) :
  id <> "" ->
  ((length (candidates [self] (lower id)) <= 1)%nat ->
   Workbook_init isfile wbs_open wbs_add launch [self] (Some id) None =
     rbind (Application_workbook isfile wbs_open wbs_add self (Some id))
       (fun wb => Ok (wb_xl wb))) /\
  ((1 < length (candidates [self] (lower id)))%nat ->
   Workbook_init isfile wbs_open wbs_add launch [self] (Some id) None =
     Raise (Exception (msg_many (lower id))) /\
   exists wb, head (candidates [self] (lower id)) = Some (self, wb) /\
     Application_workbook isfile wbs_open wbs_add self (Some id) = Ok wb).
Proof.
  intros Hid. unfold Workbook_init, Application_workbook, truthy.
  assert (String.eqb id "" = false) as -> by (apply String.eqb_neq; exact Hid).
  cbn [negb from_option Datatypes.id Applications_active].
  rewrite find_filter_head, candidates_single.
  destruct (filter _ (workbooks self)) as [|w1 [|w2 l]]; cbn.
  - split; [|lia]. intros _. destruct (isfile (lower id)); reflexivity.
  - split; [|lia]. intros _. reflexivity.
  - split; [lia|]. intros _. split; [reflexivity|]. exists w1. split; reflexivity.
Qed.

End OtherResolver.

Lemma resolve_case_insensitive_witness :
  Workbook_init (fun _ => false) demo_open demo_add demo_launch
    [mkApplication 100 [Book1 1%nat]] (Some "BOOK1") None =
  Workbook_init (fun _ => false) demo_open demo_add demo_launch
    [mkApplication 100 [Book1 1%nat]] (Some "book1") None.
Proof.
  apply (resolve_case_insensitive (fun _ => false) demo_open demo_add demo_launch);
    [split; discriminate | reflexivity].
Defined.

Lemma application_workbook_first_match_witness :
  Application_workbook (fun _ => true) demo_open demo_add
    (mkApplication 100 [mkWorkbook "Other" "" 5%nat; Book1 1%nat; Book1 2%nat])
    (Some "BOOK1") = Ok (Book1 1%nat).
Proof.
  apply (application_workbook_first_match (fun _ => true) demo_open demo_add
           (mkApplication 100 [mkWorkbook "Other" "" 5%nat; Book1 1%nat; Book1 2%nat])
           "BOOK1" [mkWorkbook "Other" "" 5%nat] [Book1 2%nat] (Book1 1%nat)).
  - discriminate.
  - reflexivity.
  - intros w [<-|[]]. reflexivity.
  - reflexivity.
Defined.

Lemma workbook_agrees_with_application_witness :
  Workbook_init (fun _ => false) demo_open demo_add demo_launch
    [mkApplication 100 [Book1 1%nat; Book1 2%nat]] (Some "Book1") None
    = Raise (Exception (msg_many "book1")) /\
  Application_workbook (fun _ => false) demo_open demo_add
    (mkApplication 100 [Book1 1%nat; Book1 2%nat]) (Some "Book1")
    = Ok (Book1 1%nat).
Proof.
  destruct (workbook_agrees_with_application (fun _ => false) demo_open demo_add
              demo_launch (mkApplication 100 [Book1 1%nat; Book1 2%nat]) "Book1")
    as [_ Hmany]; [discriminate|].
  destruct Hmany as [Hraise (wb & Hhead & Hret)].
  - vm_compute. lia.
  - split; [exact Hraise|].
    injection Hhead as <-. exact Hret.
Defined.

(** X4: [workbooks[i]] is the workbook at position [i mod l] for
    [-l <= i < l], so that [i - l] and [i] name the same workbook, and it
    raises the [IndexError] that names the index and the count for any
    other number; the platform is never asked for a missing item. *)
Theorem workbooks_getitem_wraps (wbs : list Workbook) :
  (forall i, - Z.of_nat (length wbs) <= i < Z.of_nat (length wbs) ->
     exists wb, Workbooks_getitem wbs i = Ok wb /\
       wbs !! Z.to_nat (i mod Z.of_nat (length wbs)) = Some wb) /\
  (forall i, 0 <= i < Z.of_nat (length wbs) ->
     Workbooks_getitem wbs (i - Z.of_nat (length wbs)) = Workbooks_getitem wbs i) /\
  (forall i, Z.of_nat (length wbs) <= i \/ i < - Z.of_nat (length wbs) ->
     Workbooks_getitem wbs i =
       Raise (IndexError
                ("Workbook index " +:+ pretty i +:+ " out of range ("
                 +:+ pretty (Z.of_nat (length wbs)) +:+ " workbooks)"))).
Proof.
  set (l := Z.of_nat (length wbs)).
  assert (Hin : forall i, 0 <= i < l ->
            Workbooks_getitem wbs i =
              match wbs !! Z.to_nat i with Some wb => Ok wb | None => Raise HostError end).
  { intros i Hi. unfold Workbooks_getitem. fold l.
    destruct (Z.geb_spec i l); [lia|].
    destruct (Z.ltb_spec i 0); [lia|]. reflexivity. }
  assert (Hneg : forall i, - l <= i < 0 ->
            Workbooks_getitem wbs i =
              match wbs !! Z.to_nat (i + l) with Some wb => Ok wb | None => Raise HostError end).
  { intros i Hi. unfold Workbooks_getitem. fold l.
    destruct (Z.geb_spec i l); [lia|].
    destruct (Z.ltb_spec i 0); [|lia].
    destruct (Z.ltb_spec i (- l)); [lia|]. reflexivity. }
  split; [|split].
  - intros i Hi.
    assert (Hlook : exists wb, wbs !! Z.to_nat (i mod l) = Some wb).
    { apply lookup_lt_is_Some_2. pose proof (Z.mod_pos_bound i l). lia. }
    destruct Hlook as [wb Hwb]. exists wb. split; [|exact Hwb].
    destruct (Z.ltb_spec i 0).
    + rewrite Hneg by lia.
      replace (i + l) with (i mod l); [rewrite Hwb; reflexivity|].
      symmetry. apply Z.mod_unique with (q := -1); lia.
    + rewrite Hin by lia.
      replace i with (i mod l) at 1; [rewrite Hwb; reflexivity|].
      apply Z.mod_small. lia.
  - intros i Hi. rewrite Hneg by lia. rewrite Hin by lia.
    replace (i - l + l) with i by lia. reflexivity.
  - intros i Hoob. unfold Workbooks_getitem, msg_workbook_index. fold l.
    destruct (Z.geb_spec i l); [reflexivity|].
    destruct (Z.ltb_spec i 0); [|lia].
    destruct (Z.ltb_spec i (- l)); [reflexivity|lia].
Qed.

Lemma Sheets_call_index {L : StrLower} (sheets : list Sheet) (i : nat) (s : Sheet) :
  sheets !! i = Some s ->
  Sheets_call sheets (ByIndex (Z.of_nat i + 1)) = Ok s.
Proof.
  intros H. unfold Sheets_call.
  destruct (Z.leb_spec 1 (Z.of_nat i + 1)); [|lia].
  replace (Z.to_nat (Z.of_nat i + 1 - 1)) with i by lia.
  rewrite H. reflexivity.
Qed.

(** X5: the 0-based [sheets[i]] is the 1-based [sheets(i + 1)] for
    [0 <= i < l], [sheets[i - l]] is the same sheet, any other number
    raises the [IndexError] that names the index and the count, and a
    name goes to the platform unchanged. *)
Theorem sheets_getitem_zero_based {L : StrLower} (sheets : list Sheet) :
  (forall i, 0 <= i < Z.of_nat (length sheets) ->
     Sheets_getitem sheets (ByIndex i) = Sheets_call sheets (ByIndex (i + 1)) /\
     Sheets_getitem sheets (ByIndex (i - Z.of_nat (length sheets))) =
       Sheets_call sheets (ByIndex (i + 1)) /\
     exists s, Sheets_getitem sheets (ByIndex i) = Ok s /\
               sheets !! Z.to_nat i = Some s) /\
  (forall i, Z.of_nat (length sheets) <= i \/ i < - Z.of_nat (length sheets) ->
     Sheets_getitem sheets (ByIndex i) =
       Raise (IndexError
                ("Sheet index " +:+ pretty i +:+ " out of range ("
                 +:+ pretty (Z.of_nat (length sheets)) +:+ " sheets)"))) /\
  (forall n, Sheets_getitem sheets (ByName n) = Sheets_call sheets (ByName n)).
Proof.
  set (l := Z.of_nat (length sheets)).
  split; [|split].
  - intros i Hi.
    assert (H0 : Sheets_getitem sheets (ByIndex i) = Sheets_call sheets (ByIndex (i + 1))).
    { unfold Sheets_getitem. fold l.
      destruct (Z.geb_spec i l); [lia|].
      destruct (Z.ltb_spec i 0); [lia|]. reflexivity. }
    split; [exact H0|]. split.
    + unfold Sheets_getitem. fold l.
      destruct (Z.geb_spec (i - l) l); [lia|].
      destruct (Z.ltb_spec (i - l) 0); [|lia].
      destruct (Z.ltb_spec (i - l) (- l)); [lia|].
      cbn [rbind]. do 2 f_equal. lia.
    + destruct (lookup_lt_is_Some_2 sheets (Z.to_nat i)) as [s Hs]; [lia|].
      exists s. split; [|exact Hs]. rewrite H0.
      replace i with (Z.of_nat (Z.to_nat i)) at 1 by lia.
      apply Sheets_call_index. exact Hs.
  - intros i Hoob. unfold Sheets_getitem, msg_sheet_index. fold l.
    destruct (Z.geb_spec i l); [reflexivity|].
    destruct (Z.ltb_spec i 0); [|lia].
    destruct (Z.ltb_spec i (- l)); [reflexivity|lia].
  - reflexivity.
Qed.

(** X6: iterating over the sheets yields every sheet once, in order, and
    no step of the iteration fails. *)
Theorem sheets_iter_all {L : StrLower} (sheets : list Sheet) :
  Sheets_iter sheets = map Ok sheets.
Proof.
  unfold Sheets_iter. apply list_eq. intros i.
  rewrite !list_lookup_fmap.
  destruct (sheets !! i) as [s|] eqn:Hs; simpl.
  - rewrite lookup_seq_lt by (apply lookup_lt_Some in Hs; exact Hs).
    simpl. f_equal. apply Sheets_call_index. exact Hs.
  - rewrite lookup_seq_ge by (apply lookup_ge_None in Hs; lia).
    reflexivity.
Qed.

Lemma str_find_bounds (c : ascii) (s : string) : -1 <= str_find c s.
Proof.
  induction s as [|a s IH]; simpl; [lia|].
  destruct (Ascii.eqb a c); [lia|].
  destruct (Z.ltb_spec (str_find c s) 0); lia.
Qed.

Lemma str_find_app (c : ascii) (pre s : string) :
  str_find c pre <> -1 -> str_find c (pre +:+ s) <> -1.
Proof.
  induction pre as [|a pre IH]; simpl; [congruence|].
  destruct (Ascii.eqb a c); [lia|].
  pose proof (str_find_bounds c pre). pose proof (str_find_bounds c (pre +:+ s)).
  destruct (Z.ltb_spec (str_find c pre) 0); [lia|].
  intros _. destruct (Z.ltb_spec (str_find c (pre +:+ s)) 0); [|lia].
  exfalso. apply IH; lia.
Qed.

Lemma str_rfind_absent (c : ascii) (s : string) :
  str_find c s = -1 -> str_rfind c s = -1.
Proof.
  induction s as [|a s IH]; simpl; [reflexivity|].
  destruct (Ascii.eqb a c); [discriminate|].
  pose proof (str_find_bounds c s).
  destruct (Z.ltb_spec (str_find c s) 0); [|lia].
  intros _. rewrite IH by lia. reflexivity.
Qed.

Lemma str_rfind_last (c : ascii) (pre rest : string) :
  str_find c rest = -1 ->
  str_rfind c (pre +:+ String c rest) = Z.of_nat (String.length pre).
Proof.
  intros Hrest. induction pre as [|a pre IH]; simpl.
  - rewrite (str_rfind_absent c rest Hrest). simpl.
    rewrite Ascii.eqb_refl. reflexivity.
  - rewrite IH.
    destruct (Z.leb_spec 0 (Z.of_nat (String.length pre))); lia.
Qed.

Lemma str_from_app (pre rest : string) (c : ascii) :
  str_from (String.length pre + 1) (pre +:+ String c rest) = rest.
Proof.
  induction pre as [|a pre IH]; simpl; [reflexivity | exact IH].
Qed.

Section AddressFacts.

Variable xl_get_address : bool -> bool -> bool -> string.

(** X7: with the sheet name asked for and no external reference,
    [get_address] drops the platform's address up to its last [']'], the
    workbook part, and puts a quote in front of what is left when that
    still holds a quote; an address without ['['] is returned as it is. *)
Theorem get_address_strips_workbook (row_absolute column_absolute : bool) :
  (forall pre rest,
     xl_get_address row_absolute column_absolute true = pre +:+ "]" +:+ rest ->
     str_find "[" pre <> -1 ->
     str_find "]" rest = -1 ->
     get_address xl_get_address row_absolute column_absolute true false =
       if str_find "'" rest >? -1 then "'" +:+ rest else rest) /\
  (str_find "[" (xl_get_address row_absolute column_absolute true) = -1 ->
   get_address xl_get_address row_absolute column_absolute true false =
     xl_get_address row_absolute column_absolute true).
Proof.
  split.
  - intros pre rest Haddr Hopen Hclose. unfold get_address. cbn [andb negb].
    rewrite Haddr.
    pose proof (str_find_app "[" pre ("]" +:+ rest) Hopen) as Hfound.
    pose proof (str_find_bounds "[" (pre +:+ "]" +:+ rest)) as Hb.
    destruct (Z.gtb_spec (str_find "[" (pre +:+ "]" +:+ rest)) (-1)); [|lia].
    change ("]" +:+ rest) with (String "]" rest).
    rewrite str_rfind_last by exact Hclose.
    replace (Z.to_nat (Z.of_nat (String.length pre) + 1))
      with (String.length pre + 1)%nat by lia.
    rewrite str_from_app. reflexivity.
  - intros Hnone. unfold get_address. cbn [andb negb].
    rewrite Hnone. reflexivity.
Qed.

End AddressFacts.

(** The quirk that the source notes: a workbook name with a space makes
    the platform quote the reference, and the sheet name comes out quoted
    although it has no space. *)
Lemma get_address_strips_workbook_witness :
  get_address (fun _ _ _ => "'[My Book.xlsx]Sheet1'!$A$1") true true true false
    = "'Sheet1'!$A$1" /\
  get_address (fun _ _ _ => "Sheet1!$A$1") true true true false = "Sheet1!$A$1".
Proof.
  destruct (get_address_strips_workbook (fun _ _ _ => "'[My Book.xlsx]Sheet1'!$A$1")
              true true) as [Hstrip _].
  destruct (get_address_strips_workbook (fun _ _ _ => "Sheet1!$A$1")
              true true) as [_ Hsame].
  split.
  - apply (Hstrip "'[My Book.xlsx" "Sheet1'!$A$1"); [reflexivity | discriminate | reflexivity].
  - apply Hsame. reflexivity.
Defined.

Lemma substring_append_4 (s : string) :
  String.substring 0 4 ("http://" +:+ s) = "http".
Proof. reflexivity. Qed.

(** X8: the address that [add_hyperlink] hands to the platform never
    begins with ["www."]: it is the given address, with ["http://"] in
    front exactly when the given one begins with ["www."].  The default
    text is the address as given, the default tip is built from the
    address as handed over, and a second pass over that address changes
    nothing. *)
Theorem add_hyperlink_address (address : string) :
  let '(addr, text, tip) := add_hyperlink address None None in
  String.substring 0 4 addr <> "www." /\
  addr = (if String.eqb (String.substring 0 4 address) "www."
          then "http://" +:+ address else address) /\
  text = address /\
  tip = addr +:+ " - Click once to follow. Click and hold to select this cell." /\
  forall t s, fst (fst (add_hyperlink addr t s)) = addr.
Proof.
  unfold add_hyperlink.
  destruct (String.eqb (String.substring 0 4 address) "www.") eqn:Hw.
  - split; [rewrite substring_append_4; discriminate|].
    split; [reflexivity|]. split; [reflexivity|]. split; [reflexivity|].
    intros t s. cbn [fst]. rewrite substring_append_4. reflexivity.
  - split; [apply String.eqb_neq; exact Hw|].
    split; [reflexivity|]. split; [reflexivity|]. split; [reflexivity|].
    intros t s. cbn [fst]. rewrite Hw. reflexivity.
Qed.

Section Geometry.

Context {P : XlPlatform}.

Lemma call2_at (self : Range) (r c : Z) :
  1 <= row self + r - 1 -> 1 <= column self + c - 1 ->
  exists o, call2 self r c =
    Ok (mkRange (mkXl (worksheet self) (row self + r - 1) (column self + c - 1) 1 1) o).
Proof. intros Hr Hc. eexists. apply call2_ok; assumption. Qed.

Lemma call2_refused (self : Range) (r c : Z) :
  row self + r - 1 < 1 \/ column self + c - 1 < 1 ->
  call2 self r c = Raise HostError.
Proof.
  intros H. unfold call2, xl_item2, cell_at.
  fold (row self). fold (column self).
  destruct (Z.leb_spec 1 (row self + r - 1)), (Z.leb_spec 1 (column self + c - 1));
    try reflexivity; lia.
Qed.

(** The rectangle between a top-left cell and a bottom-right cell. *)
Lemma Range2_corners (sh : Sheet) (r c r' c' : Z) (o o' : gmap string value) :
  r <= r' -> c <= c' ->
  Range2 (mkRange (mkXl sh r c 1 1) o) (mkRange (mkXl sh r' c' 1 1) o') =
    Ok (mkRange (mkXl sh r c (r' - r + 1) (c' - c + 1)) ∅).
Proof.
  intros Hr Hc. rewrite Range2_eq. cbn [xl].
  unfold xl_span. cbn [xr_sheet xr_row xr_col xr_rows xr_cols].
  do 2 f_equal. f_equal; lia.
Qed.

(** X9: on a well-formed range [resize] raises [AssertionError] exactly
    when a given size is not positive; otherwise it returns the range
    with the same top-left cell and the sizes asked for, an absent size
    being the current one, and hands the option bag over. *)
Theorem resize_shape (self : Range) (row_size column_size : option Z) :
  well_formed self ->
  resize self row_size column_size =
    if (size_accepted row_size && size_accepted column_size)%bool then
      Ok (mkRange
            (mkXl (worksheet self) (row self) (column self)
               (default (row_count self) row_size)
               (default (column_count self) column_size))
            (with_convert (_options self)))
    else Raise AssertionError.
Proof.
  intros (Hr & Hc & Hn & Hm). unfold resize.
  destruct row_size as [n|], column_size as [m|];
    cbn [size_accepted default from_option]; unfold id;
    repeat match goal with
    | |- context [0 <? ?k] => destruct (Z.ltb_spec 0 k)
    end; cbn [rbind andb]; try reflexivity.
  all: rewrite !call2_ok by lia; cbn [rbind].
  all: rewrite Range2_corners by lia; cbn [rbind].
  all: rewrite options_kw_bag; unfold with_convert; cbn [xl].
  all: do 2 f_equal; f_equal; lia.
Qed.

(** X10: [offset] moves a well-formed range by the two offsets and keeps
    its shape; it fails, with the platform's error, exactly when the
    moved top-left cell would leave the sheet upwards or to the left. *)
Theorem offset_shape (self : Range) (row_offset column_offset : Z) :
  well_formed self ->
  (1 <= row self + row_offset -> 1 <= column self + column_offset ->
   offset self row_offset column_offset =
     Ok (mkRange
           (mkXl (worksheet self) (row self + row_offset)
              (column self + column_offset) (row_count self) (column_count self))
           (with_convert (_options self)))) /\
  (row self + row_offset < 1 \/ column self + column_offset < 1 ->
   offset self row_offset column_offset = Raise HostError).
Proof.
  intros (Hr & Hc & Hn & Hm). unfold offset. split.
  - intros Hro Hco. rewrite !call2_ok by lia. cbn [rbind].
    rewrite Range2_corners by lia. cbn [rbind].
    rewrite options_kw_bag. unfold with_convert. cbn [xl].
    do 2 f_equal. f_equal; lia.
  - intros Hout. rewrite call2_refused by lia. reflexivity.
Qed.

Lemma with_convert_idem (d : gmap string value) :
  with_convert (with_convert d) = with_convert d.
Proof.
  unfold with_convert. rewrite lookup_insert_eq. cbn [default from_option].
  apply insert_insert_eq.
Qed.

(** X11: two offsets in a row are the offset by their sums, option bag
    included, provided the first one stays on the sheet. *)
Theorem offset_offset (self : Range) (a b c d : Z) :
  well_formed self ->
  1 <= row self + a -> 1 <= column self + b ->
  rbind (offset self a b) (fun r => offset r c d) = offset self (a + c) (b + d).
Proof.
  intros Hwf Ha Hb. pose proof Hwf as (Hr & Hc & Hn & Hm).
  destruct (offset_shape self a b Hwf) as [Hfirst _].
  rewrite Hfirst by assumption. cbn [rbind].
  set (r1 := mkRange _ _).
  assert (Hwf1 : well_formed r1) by (repeat split; cbn; lia).
  destruct (offset_shape r1 c d Hwf1) as [Hok1 Hbad1].
  destruct (offset_shape self (a + c) (b + d) Hwf) as [Hok Hbad].
  destruct (Z_lt_le_dec (row self + (a + c)) 1) as [Hlow|Hrow].
  { rewrite Hbad by lia. apply Hbad1. left. cbn. lia. }
  destruct (Z_lt_le_dec (column self + (b + d)) 1) as [Hlow|Hcol].
  { rewrite Hbad by lia. apply Hbad1. right. cbn. lia. }
  rewrite Hok by lia. rewrite Hok1 by (cbn; lia).
  subst r1. cbn [worksheet row column row_count column_count xl _options
                 xr_sheet xr_row xr_col xr_rows xr_cols].
  rewrite with_convert_idem.
  do 2 f_equal. f_equal; lia.
Qed.

Lemma last_position (rows cols : Z) :
  1 <= rows -> 1 <= cols ->
  (rows * cols - 1) / cols = rows - 1 /\ (rows * cols - 1) mod cols = cols - 1.
Proof.
  intros Hn Hm.
  assert (rows * cols - 1 = cols * (rows - 1) + (cols - 1)) as -> by lia.
  split.
  - symmetry. apply (Z.div_unique _ _ _ (cols - 1)); lia.
  - symmetry. apply (Z.mod_unique _ _ (rows - 1)); lia.
Qed.

(** X12: [last_cell] of a well-formed range is its bottom-right cell, and
    it is the cell that the index [-1] selects. *)
Theorem last_cell_is_last_index (self : Range) :
  well_formed self ->
  last_cell self =
    Ok (mkRange
          (mkXl (worksheet self) (row self + row_count self - 1)
             (column self + column_count self - 1) 1 1)
          (with_convert (_options self))) /\
  exists r, getitem self (KInt (-1)) = Ok r /\
    xl r = mkXl (worksheet self) (row self + row_count self - 1)
             (column self + column_count self - 1) 1 1.
Proof.
  intros Hwf. pose proof Hwf as (Hr & Hc & Hn & Hm). split.
  - unfold last_cell. rewrite call2_ok by lia. cbn [rbind].
    rewrite options_kw_bag. reflexivity.
  - eexists. split.
    + unfold getitem.
      assert (1 <= len self) by (unfold len; nia).
      destruct (Z.geb_spec (-1) (len self)); [lia|].
      destruct (Z.ltb_spec (-1) 0); [|lia].
      destruct (Z.ltb_spec (-1) (- len self)); [lia|].
      replace (len self + -1 + 1) with (len self - 1 + 1) by lia.
      apply call1_row_major; [assumption|lia].
    + cbn [xl]. unfold len.
      destruct (last_position (row_count self) (column_count self) Hn Hm) as [-> ->].
      f_equal; lia.
Qed.

(** X13: inside a well-formed range the tuple index [(i, j)] and the
    linear index [i * columns + j] select the same cell. *)
Theorem tuple_index_is_linear (self : Range) (i j : Z) :
  well_formed self ->
  0 <= i < row_count self -> 0 <= j < column_count self ->
  getitem self (KTuple (IInt i) (IInt j)) =
    getitem self (KInt (i * column_count self + j)).
Proof.
  intros Hwf Hi Hj. pose proof Hwf as (Hr & Hc & Hn & Hm).
  rewrite tuple_index_offset. rewrite call2_ok by lia.
  unfold getitem.
  assert (0 <= i * column_count self + j < len self) as Hk by (unfold len; nia).
  destruct (Z.geb_spec (i * column_count self + j) (len self)); [lia|].
  destruct (Z.ltb_spec (i * column_count self + j) 0); [lia|].
  rewrite call1_row_major by (assumption || lia).
  assert ((i * column_count self + j) / column_count self = i) as ->.
  { symmetry. apply (Z.div_unique _ _ _ j); lia. }
  assert ((i * column_count self + j) mod column_count self = j) as ->.
  { symmetry. apply (Z.mod_unique _ _ i); lia. }
  do 2 f_equal. f_equal; lia.
Qed.

(** X14: a tuple of two slices without step selects, on a well-formed
    range, the rectangle that starts [start] rows and columns from the
    top-left cell and has [stop - start] rows and columns, an absent
    start being 0 and an absent stop the extent of the range; the stops
    are not held to the extent. *)
Theorem tuple_slice_shape (self : Range) (a b c d : option Z) :
  well_formed self ->
  0 <= default 0 a < default (row_count self) b ->
  0 <= default 0 c < default (column_count self) d ->
  exists r,
    getitem self (KTuple (ISlice (mkSlice a b None)) (ISlice (mkSlice c d None)))
      = Ok r /\
    xl r = mkXl (worksheet self)
             (row self + default 0 a) (column self + default 0 c)
             (default (row_count self) b - default 0 a)
             (default (column_count self) d - default 0 c).
Proof.
  intros (Hr & Hc & Hn & Hm) Hrows Hcols.
  unfold getitem, axis. cbn [step start stop rbind].
  destruct a as [a|], b as [b|], c as [c|], d as [d|];
    cbn [default from_option] in *; unfold id in *.
  all: match goal with
       | |- context [if ?t then _ else _] => destruct t eqn:Hsingle
       end.
  all: try (apply andb_true_iff in Hsingle as [Hcd Hab];
            apply Z.eqb_eq in Hcd, Hab).
  all: rewrite !call2_ok by lia; cbn [rbind].
  all: eexists; split; [reflexivity|].
  all: unfold worksheet_range, xl_span;
       cbn [xl xr_sheet xr_row xr_col xr_rows xr_cols]; f_equal; lia.
Qed.

End Geometry.

Lemma workbooks_getitem_wraps_witness :
  (exists wb, Workbooks_getitem [Book1 1%nat; Book1 2%nat; Book1 3%nat] (-1) = Ok wb /\
     [Book1 1%nat; Book1 2%nat; Book1 3%nat] !! Z.to_nat ((-1) mod 3) = Some wb) /\
  Workbooks_getitem [Book1 1%nat; Book1 2%nat; Book1 3%nat] (2 - 3) =
    Workbooks_getitem [Book1 1%nat; Book1 2%nat; Book1 3%nat] 2 /\
  Workbooks_getitem [Book1 1%nat; Book1 2%nat; Book1 3%nat] 3 =
    Raise (IndexError "Workbook index 3 out of range (3 workbooks)").
Proof.
  destruct (workbooks_getitem_wraps [Book1 1%nat; Book1 2%nat; Book1 3%nat])
    as (Hin & Hwrap & Hout).
  split; [|split].
  - apply (Hin (-1)). split; [discriminate | reflexivity].
  - apply (Hwrap 2). split; [discriminate | reflexivity].
  - apply (Hout 3). left. discriminate.
Defined.

Lemma sheets_getitem_zero_based_witness :
  Sheets_getitem [Sheet1; Sheet2] (ByIndex 1) = Sheets_call [Sheet1; Sheet2] (ByIndex 2) /\
  Sheets_getitem [Sheet1; Sheet2] (ByIndex (-1)) = Sheets_call [Sheet1; Sheet2] (ByIndex 2) /\
  Sheets_getitem [Sheet1; Sheet2] (ByIndex 2) =
    Raise (IndexError "Sheet index 2 out of range (2 sheets)").
Proof.
  destruct (sheets_getitem_zero_based [Sheet1; Sheet2]) as (Hin & Hout & _).
  destruct (Hin 1) as (Hcall & Hwrap & _); [split; [discriminate | reflexivity]|].
  split; [exact Hcall|]. split; [exact Hwrap|].
  apply (Hout 2). left. discriminate.
Defined.

Lemma resize_shape_witness :
  @resize grid_platform A1B2 (Some 3) None =
    Ok (mkRange (mkXl Sheet1 1 1 3 2) (with_convert ∅)) /\
  @resize grid_platform A1B2 (Some 0) None = Raise AssertionError.
Proof.
  assert (Hwf : well_formed A1B2) by (repeat split; discriminate).
  split.
  - exact (@resize_shape grid_platform A1B2 (Some 3) None Hwf).
  - exact (@resize_shape grid_platform A1B2 (Some 0) None Hwf).
Defined.

Lemma offset_shape_witness :
  @offset grid_platform B2C3 (-1) 1 =
    Ok (mkRange (mkXl Sheet1 1 3 2 2) (with_convert ∅)) /\
  @offset grid_platform B2C3 (-2) 0 = Raise HostError.
Proof.
  assert (Hwf : well_formed B2C3) by (repeat split; discriminate).
  destruct (@offset_shape grid_platform B2C3 (-1) 1 Hwf) as [Hok _].
  destruct (@offset_shape grid_platform B2C3 (-2) 0 Hwf) as [_ Hbad].
  split.
  - apply Hok; discriminate.
  - apply Hbad. left. reflexivity.
Defined.

Lemma offset_offset_witness :
  rbind (@offset grid_platform B2C3 2 3) (fun r => @offset grid_platform r (-3) 1)
    = @offset grid_platform B2C3 (2 + -3) (3 + 1).
Proof.
  apply (@offset_offset grid_platform B2C3 2 3 (-3) 1).
  - repeat split; discriminate.
  - discriminate.
  - discriminate.
Defined.

Lemma last_cell_is_last_index_witness :
  @last_cell grid_platform B2C3 = Ok (mkRange (mkXl Sheet1 3 3 1 1) (with_convert ∅)) /\
  exists r, @getitem grid_platform B2C3 (KInt (-1)) = Ok r /\ xl r = mkXl Sheet1 3 3 1 1.
Proof.
  apply (@last_cell_is_last_index grid_platform B2C3).
  repeat split; discriminate.
Defined.

Lemma tuple_index_is_linear_witness :
  @getitem grid_platform B2C3 (KTuple (IInt 1) (IInt 0)) =
    @getitem grid_platform B2C3 (KInt (1 * column_count B2C3 + 0)).
Proof.
  apply (@tuple_index_is_linear grid_platform B2C3 1 0).
  - repeat split; discriminate.
  - split; [discriminate | reflexivity].
  - split; [discriminate | reflexivity].
Defined.

(** [B2:C3[1:, :]] is its second row, B3:C3, and [B2:C3[0:5, 0:1]] runs
    over the range, down to row 6. *)
Lemma tuple_slice_shape_witness :
  (exists r, @getitem grid_platform B2C3
               (KTuple (ISlice (mkSlice (Some 1) None None))
                       (ISlice (mkSlice None None None))) = Ok r /\
             xl r = mkXl Sheet1 3 2 1 2) /\
  (exists r, @getitem grid_platform B2C3
               (KTuple (ISlice (mkSlice (Some 0) (Some 5) None))
                       (ISlice (mkSlice (Some 0) (Some 1) None))) = Ok r /\
             xl r = mkXl Sheet1 2 2 5 1).
Proof.
  assert (Hwf : well_formed B2C3) by (repeat split; discriminate).
  split.
  - apply (@tuple_slice_shape grid_platform B2C3 (Some 1) None None None Hwf);
      split; [discriminate | reflexivity | discriminate | reflexivity].
  - apply (@tuple_slice_shape grid_platform B2C3 (Some 0) (Some 5) (Some 0) (Some 1) Hwf);
      split; [discriminate | reflexivity | discriminate | reflexivity].
Defined.

Section Sequences.

Context {P : XlPlatform}.

(** A linear slice whose bounds are let through selects the rectangle
    between the cell at its start and the cell before its stop. *)
Lemma getitem_slice_unfold (self : Range) (a b : option Z) :
  start_in_range (len self) a -> stop_in_range (len self) b ->
  getitem self (KSlice (mkSlice a b None)) =
    let! x := call1 self (slice_start (len self) a + 1) in
    let! y := call1 self (slice_stop (len self) b) in
    Range2 x y.
Proof.
  intros Ha Hb. unfold getitem. cbn [step start stop].
  assert ((match a with
           | None => Ok 0
           | Some start =>
               if start >=? len self then
                 Raise (IndexError (msg_range "Start index " start (len self)))
               else if start <? 0 then
                 if start <? - len self then
                   Raise (IndexError (msg_range "Start index " start (len self)))
                 else Ok (len self + start)
               else Ok start
           end) = Ok (slice_start (len self) a)) as ->.
  { destruct a as [a|]; [|reflexivity]. cbn in Ha. unfold slice_start, normalize.
    destruct (Z.geb_spec a (len self)); [lia|].
    destruct (Z.ltb_spec a 0); [|reflexivity].
    destruct (Z.ltb_spec a (- len self)); [lia|reflexivity]. }
  assert ((match b with
           | None => Ok (len self)
           | Some stop =>
               if stop >? len self then
                 Raise (IndexError (msg_range "Stop index " stop (len self)))
               else if stop <? 0 then
                 if stop <=? - len self then
                   Raise (IndexError (msg_range "Stop index " stop (len self)))
                 else Ok (len self + stop)
               else Ok stop
           end) = Ok (slice_stop (len self) b)) as ->.
  { destruct b as [b|]; [|reflexivity]. cbn in Hb. unfold slice_stop, normalize.
    destruct (Z.gtb_spec b (len self)); [lia|].
    destruct (Z.ltb_spec b 0); [|reflexivity].
    destruct (Z.leb_spec b (- len self)); [lia|reflexivity]. }
  reflexivity.
Qed.

(** X15: [self[:]] of a well-formed range is the whole range, of any
    shape, without the option bag. *)
Theorem full_slice_is_whole (self : Range) :
  well_formed self ->
  getitem self (KSlice (mkSlice None None None)) = Ok (mkRange (xl self) ∅).
Proof.
  intros Hwf. pose proof Hwf as (Hr & Hc & Hn & Hm).
  rewrite getitem_slice_unfold by exact I.
  cbn [slice_start slice_stop].
  rewrite (call1_row_major self 0) by (assumption || lia).
  cbn [rbind].
  assert (1 <= len self) by (unfold len; nia).
  replace (len self) with (len self - 1 + 1) at 1 by lia.
  rewrite call1_row_major by (assumption || lia).
  cbn [rbind]. unfold len.
  destruct (last_position (row_count self) (column_count self) Hn Hm) as [-> ->].
  rewrite Z.div_0_l, Z.mod_0_l by lia.
  rewrite Range2_corners by lia.
  destruct self as [[sh r c n m] o].
  cbn [xl worksheet row column row_count column_count xr_sheet xr_row xr_col
       xr_rows xr_cols] in *.
  do 2 f_equal. f_equal; lia.
Qed.

(** X16: on a well-formed range of one column or of one row, a linear
    slice without step, with its bounds in range and its start below its
    stop, is the run of [stop - start] cells that begins at position
    [start], negative bounds counting from the end. *)
Theorem line_slice_is_run (self : Range) (a b : option Z) :
  well_formed self ->
  start_in_range (len self) a -> stop_in_range (len self) b ->
  slice_start (len self) a < slice_stop (len self) b ->
  (column_count self = 1 ->
   getitem self (KSlice (mkSlice a b None)) =
     Ok (region (worksheet self)
           (row self + slice_start (len self) a) (column self)
           (slice_stop (len self) b - slice_start (len self) a) 1)) /\
  (row_count self = 1 ->
   getitem self (KSlice (mkSlice a b None)) =
     Ok (region (worksheet self)
           (row self) (column self + slice_start (len self) a)
           1 (slice_stop (len self) b - slice_start (len self) a))).
Proof.
  intros Hwf Ha Hb Hlt. pose proof Hwf as (Hr & Hc & Hn & Hm).
  rewrite getitem_slice_unfold by assumption.
  set (s := slice_start (len self) a) in *.
  set (e := slice_stop (len self) b) in *.
  assert (0 <= s) as Hs.
  { subst s. destruct a as [a|]; cbn in *; [|lia]. unfold normalize.
    destruct (Z.ltb_spec a 0); lia. }
  assert (e <= len self) as He.
  { subst e. destruct b as [b|]; cbn in *; [|lia]. unfold normalize.
    destruct (Z.ltb_spec b 0); lia. }
  assert (Hcells :
    (let! x := call1 self (s + 1) in let! y := call1 self e in Range2 x y) =
    Range2
      (mkRange (mkXl (worksheet self) (row self + s / column_count self)
                  (column self + s mod column_count self) 1 1)
         (call_options (_options self)))
      (mkRange (mkXl (worksheet self) (row self + (e - 1) / column_count self)
                  (column self + (e - 1) mod column_count self) 1 1)
         (call_options (_options self)))).
  { rewrite (call1_row_major self s) by assumption. cbn [rbind].
    replace e with (e - 1 + 1) at 1 by lia.
    rewrite call1_row_major by (assumption || lia). reflexivity. }
  rewrite Hcells. clear Hcells.
  split.
  - intros Hone. rewrite Hone. rewrite !Z.div_1_r, !Z.mod_1_r.
    rewrite Range2_corners by lia. unfold region. do 2 f_equal. f_equal; lia.
  - intros Hone. unfold len in He. rewrite Hone in He.
    rewrite !Z.div_small, !Z.mod_small by lia.
    rewrite Range2_corners by lia. unfold region. do 2 f_equal. f_equal; lia.
Qed.

(** X17: iterating over a range yields as many items as it has elements,
    and the item at position [i] is [self[i]]. *)
Theorem iter_agrees_with_index (self : Range) :
  length (Range_iter self) = Z.to_nat (len self) /\
  forall i, 0 <= i < len self ->
    Range_iter self !! Z.to_nat i = Some (getitem self (KInt i)).
Proof.
  unfold Range_iter. split.
  - rewrite length_map, length_seq. reflexivity.
  - intros i Hi. rewrite list_lookup_fmap.
    rewrite lookup_seq_lt by lia. cbn [fmap option_fmap option_map].
    f_equal. unfold getitem.
    destruct (Z.geb_spec i (len self)); [lia|].
    destruct (Z.ltb_spec i 0); [lia|].
    f_equal. lia.
Qed.

Lemma growth_at_least_1 (sh : Sheet) (d : direction) (r c : Z) :
  0 <= r -> 0 <= c -> 1 <= growth sh d r c.
Proof.
  intros Hr Hc.
  destruct (growth_cases sh d r c Hr Hc) as (H1 & H2 & H3).
  destruct (empty_out sh d r c 1) eqn:E1.
  - apply empty_out_true in E1. rewrite H1; [lia | exact E1].
  - apply empty_out_false in E1.
    destruct (empty_out sh d r c 2) eqn:E2.
    + apply empty_out_true in E2. rewrite H2; [lia | assumption..].
    + apply empty_out_false in E2.
      destruct H3 as [H3 _]; [assumption..|]. lia.
Qed.

(** X18: the three expansions of a well-formed range depend on its
    top-left cell only ([vertical] also on its columns, [horizontal] on
    its rows), and expanding the result again returns it unchanged. *)
Theorem expansion_idempotent (self : Range) :
  well_formed self ->
  rbind (vertical self) vertical = vertical self /\
  rbind (horizontal self) horizontal = horizontal self /\
  rbind (table self) table = table self /\
  (forall other, well_formed other ->
     worksheet other = worksheet self -> row other = row self ->
     column other = column self ->
     table other = table self).
Proof.
  intros Hwf. pose proof Hwf as (Hr & Hc & Hn & Hm).
  pose proof (growth_at_least_1 (worksheet self) Down (row self) (column self)
                ltac:(lia) ltac:(lia)) as Hv.
  pose proof (growth_at_least_1 (worksheet self) Right (row self) (column self)
                ltac:(lia) ltac:(lia)) as Hh.
  split; [|split; [|split]].
  - rewrite vertical_growth by assumption. cbn [rbind].
    rewrite vertical_growth by (repeat split; cbn; lia). reflexivity.
  - rewrite horizontal_growth by assumption. cbn [rbind].
    rewrite horizontal_growth by (repeat split; cbn; lia). reflexivity.
  - rewrite table_growth by assumption. cbn [rbind].
    rewrite table_growth by (repeat split; cbn; lia). reflexivity.
  - intros other Hwf' Hs Hrow Hcol.
    rewrite !table_growth by assumption. rewrite Hs, Hrow, Hcol. reflexivity.
Qed.

End Sequences.

Lemma full_slice_is_whole_witness :
  @getitem grid_platform B2C3 (KSlice (mkSlice None None None)) = Ok B2C3.
Proof.
  apply (@full_slice_is_whole grid_platform B2C3).
  repeat split; discriminate.
Defined.

(** [A1:A5[1:-1]] is A2:A4. *)
Lemma line_slice_is_run_witness :
  @getitem grid_platform A1A5 (KSlice (mkSlice (Some 1) (Some (-1)) None))
    = Ok (region Sheet1 2 1 3 1).
Proof.
  destruct (@line_slice_is_run grid_platform A1A5 (Some 1) (Some (-1))) as [Hcol _].
  - repeat split; discriminate.
  - split; [discriminate | reflexivity].
  - split; [reflexivity | discriminate].
  - reflexivity.
  - apply Hcol. reflexivity.
Defined.

Lemma iter_agrees_with_index_witness :
  @Range_iter grid_platform A1B2 !! Z.to_nat 2 =
    Some (@getitem grid_platform A1B2 (KInt 2)).
Proof.
  destruct (@iter_agrees_with_index grid_platform A1B2) as [_ H].
  apply (H 2). split; [discriminate | reflexivity].
Defined.

Lemma expansion_idempotent_witness :
  rbind (@table grid_platform (cell Sheet1 1 1)) (@table grid_platform)
    = @table grid_platform (cell Sheet1 1 1) /\
  @table grid_platform A1A5 = @table grid_platform (cell Sheet1 1 1).
Proof.
  destruct (@expansion_idempotent grid_platform (cell Sheet1 1 1))
    as (_ & _ & Htable & Hanchor); [repeat split; discriminate|].
  split; [exact Htable|].
  apply Hanchor; [repeat split; discriminate | reflexivity..].
Defined.

Section Invariants.

Context {P : XlPlatform}.

(** X19: on a well-formed range the three expansions never fail, and
    what they return is a well-formed range with the same top-left cell;
    [vertical] keeps the columns and [horizontal] the rows. *)
Theorem expansion_well_formed (self : Range) :
  well_formed self ->
  (exists r, vertical self = Ok r /\ well_formed r /\
     worksheet r = worksheet self /\ row r = row self /\
     column r = column self /\ column_count r = column_count self) /\
  (exists r, horizontal self = Ok r /\ well_formed r /\
     worksheet r = worksheet self /\ row r = row self /\
     column r = column self /\ row_count r = row_count self) /\
  (exists r, table self = Ok r /\ well_formed r /\
     worksheet r = worksheet self /\ row r = row self /\
     column r = column self).
Proof.
  intros Hwf. pose proof Hwf as (Hr & Hc & Hn & Hm).
  pose proof (growth_at_least_1 (worksheet self) Down (row self) (column self)
                ltac:(lia) ltac:(lia)) as Hv.
  pose proof (growth_at_least_1 (worksheet self) Right (row self) (column self)
                ltac:(lia) ltac:(lia)) as Hh.
  split; [|split].
  - eexists. split; [apply vertical_growth; assumption|].
    repeat split; cbn; lia.
  - eexists. split; [apply horizontal_growth; assumption|].
    repeat split; cbn; lia.
  - eexists. split; [apply table_growth; assumption|].
    repeat split; cbn; lia.
Qed.

Lemma with_convert_fixed (d : gmap string value) :
  with_convert d = d <-> is_Some (d !! "convert").
Proof.
  unfold with_convert. split.
  - intros H. rewrite <- H. rewrite lookup_insert_eq. eauto.
  - intros [v Hv]. rewrite Hv. cbn [default from_option id].
    apply insert_id. exact Hv.
Qed.

(** X20: the range that [resize] or [offset] returns has the option bag
    of the receiver, unchanged, exactly when that bag has a [convert]
    entry; otherwise the bag comes back with [convert] set to [None]
    added.  A range built by [options] always has the entry, so its bag
    goes through [resize] and [offset] unchanged. *)
Theorem resize_offset_bag (self : Range) :
  (forall rs cs r, resize self rs cs = Ok r ->
     _options r = with_convert (_options self) /\
     (_options r = _options self <-> is_Some (_options self !! "convert"))) /\
  (forall ro co r, offset self ro co = Ok r ->
     _options r = with_convert (_options self) /\
     (_options r = _options self <-> is_Some (_options self !! "convert"))) /\
  (forall c o built, Range_options self c o = Ok built ->
     xl built = xl self /\ is_Some (_options built !! "convert") /\
     forall k v, k <> "convert" -> (o !! k = Some v <-> _options built !! k = Some v)).
Proof.
  split; [|split].
  - intros rs cs r H. apply resize_options in H. fold (with_convert (_options self)) in H.
    split; [exact H|]. rewrite H. apply with_convert_fixed.
  - intros ro co r H. apply offset_options in H. fold (with_convert (_options self)) in H.
    split; [exact H|]. rewrite H. apply with_convert_fixed.
  - intros c o built H. injection H as <-. cbn [xl _options].
    split; [reflexivity|]. split.
    + rewrite lookup_insert_eq. eauto.
    + intros k v Hk. rewrite lookup_insert_ne by congruence. reflexivity.
Qed.

End Invariants.

(** X21: the candidates of [Workbook(fullname)] are exactly the pairs of
    a running application and one of its workbooks whose lower-cased
    name or full name is the identifier. *)
Theorem candidates_are_matches {L : StrLower} (applications : list Application)
    (fullname : string) (app : Application) (wb : Workbook) :
  In (app, wb) (candidates applications fullname) <->
  In app applications /\ In wb (workbooks app) /\
  (lower (wb_fullname wb) = fullname \/ lower (wb_name wb) = fullname).
Proof.
  assert (Hm : wb_matches fullname wb = true <->
               (lower (wb_fullname wb) = fullname \/ lower (wb_name wb) = fullname)).
  { unfold wb_matches. rewrite orb_true_iff, !String.eqb_eq. reflexivity. }
  rewrite <- Hm. clear Hm.
  induction applications as [|a rest IH]; simpl.
  - split; [intros [] | intros ([] & _)].
  - rewrite in_app_iff, IH, in_map_iff. split.
    + intros [(w & Heq & Hin) | (Happ & Hwb & Hmatch)].
      * injection Heq as <- <-.
        apply list_elem_of_In, list_elem_of_filter in Hin as [Hmatch Hin].
        apply list_elem_of_In in Hin. auto.
      * auto.
    + intros ([<- | Happ] & Hwb & Hmatch).
      * left. exists wb. split; [reflexivity|].
        apply list_elem_of_In, list_elem_of_filter. split; [exact Hmatch|].
        apply list_elem_of_In. exact Hwb.
      * right. auto.
Qed.

Section SheetsAddFacts.

Context {L : StrLower}.

Variable xl_sheets_add : list Sheet -> option Sheet -> option Sheet -> res Sheet.

(** X22: [Sheets.add] with a name raises the [ValueError] that quotes the
    name as given when a sheet has that name up to case, before anything
    else is looked up or added; and a sheet that it returns carries the
    name, which then no sheet had, up to case. *)
Theorem sheets_add_name_is_new (sheets : list Sheet) (name : string)
    (before after : option sheet_ref) :
  ((exists s, In s sheets /\ lower (sheet_name s) = lower name) ->
   Sheets_add xl_sheets_add sheets (Some name) before after =
     Raise (ValueError ("Sheet named '" +:+ name +:+ "' already present in workbook"))) /\
  (forall added,
     Sheets_add xl_sheets_add sheets (Some name) before after = Ok added ->
     sheet_name added = name /\
     forall s, In s sheets -> lower (sheet_name s) <> lower name).
Proof.
  unfold Sheets_add.
  destruct (existsb _ sheets) eqn:Hex.
  - split; [reflexivity | discriminate].
  - split.
    + intros (s & Hin & Hlow). exfalso.
      assert (existsb (fun s => String.eqb (lower (sheet_name s)) (lower name)) sheets = true).
      { apply existsb_exists. exists s. split; [exact Hin|].
        apply String.eqb_eq. exact Hlow. }
      congruence.
    + intros added H. cbn [rbind] in H.
      apply rbind_ok in H as (b & _ & H).
      apply rbind_ok in H as (a & _ & H).
      apply rbind_ok in H as (s0 & _ & H).
      injection H as <-. split; [reflexivity|].
      intros s Hin Hlow.
      assert (existsb (fun s => String.eqb (lower (sheet_name s)) (lower name)) sheets = true).
      { apply existsb_exists. exists s. split; [exact Hin|].
        apply String.eqb_eq. exact Hlow. }
      congruence.
Qed.

End SheetsAddFacts.

Lemma expansion_well_formed_witness :
  exists r, @table grid_platform A1A5 = Ok r /\ well_formed r /\
    worksheet r = Sheet1 /\ row r = 1 /\ column r = 1.
Proof.
  destruct (@expansion_well_formed grid_platform A1A5) as (_ & _ & H).
  - repeat split; discriminate.
  - exact H.
Defined.

Lemma resize_offset_bag_witness :
  _options A1A3_ndim !! "convert" = None /\
  exists r, @resize grid_platform A1A3_ndim (Some 2) None = Ok r /\
    _options r = with_convert (_options A1A3_ndim) /\
    (_options r = _options A1A3_ndim <-> is_Some (_options A1A3_ndim !! "convert")).
Proof.
  split; [reflexivity|].
  destruct (@resize_offset_bag grid_platform A1A3_ndim) as (Hresize & _ & _).
  eexists. split; [reflexivity|].
  apply (Hresize (Some 2) None). reflexivity.
Defined.

Lemma candidates_are_matches_witness :
  In (mkApplication 200 [Book1 2%nat], Book1 2%nat) (candidates two_instances "book1").
Proof.
  apply (candidates_are_matches two_instances "book1"
           (mkApplication 200 [Book1 2%nat]) (Book1 2%nat)).
  split; [right; left; reflexivity|].
  split; [left; reflexivity|].
  right. reflexivity.
Defined.

Lemma sheets_add_name_is_new_witness :
  Sheets_add (fun _ _ _ => Ok (mkSheet 0%nat "Sheet3")) [Sheet1; Sheet2]
    (Some "SHEET2") None None =
  Raise (ValueError "Sheet named 'SHEET2' already present in workbook").
Proof.
  destruct (sheets_add_name_is_new (fun _ _ _ => Ok (mkSheet 0%nat "Sheet3"))
              [Sheet1; Sheet2] "SHEET2" None None) as [Hclash _].
  apply Hclash. exists Sheet2. split; [right; left; reflexivity | reflexivity].
Defined.

Section ShapeFacts.

Context {P : XlPlatform}.

Variable get_shape_object : Sheet -> arg -> res xl_handle.
Variable get_chart_object : Sheet -> arg -> res xl_handle.
Variable add_chart : Sheet -> Z -> Z -> Z -> Z -> res xl_handle.
Variable set_name : xl_handle -> kw -> res unit.
Variable xlColumnClustered : Z.

Lemma Shape_init_fails (args : list arg) (xl0 : option kw)
    (kwargs : gmap string kw) :
  exists e, Shape_init get_shape_object args xl0 kwargs = Fails e.
Proof.
  unfold Shape_init.
  destruct (is_None xl0); [|eexists; reflexivity].
  destruct args as [|a [|b [|c l]]]; cbn [obind].
  - eexists; reflexivity.
  - destruct (let! sh := Sheet_active in get_shape_object sh a);
      eexists; reflexivity.
  - destruct (let! sh := as_Sheet a in get_shape_object sh b);
      eexists; reflexivity.
  - eexists; reflexivity.
Qed.

Lemma Shape_init_handle (args : list arg) (xl0 : option kw)
    (kwargs : gmap string kw) :
  is_None xl0 = false ->
  Shape_init get_shape_object args xl0 kwargs
    = Fails (TypeError ObjectInitArguments).
Proof. intros H. unfold Shape_init. rewrite H. reflexivity. Qed.

Lemma Shape_init_no_args (xl0 : option kw) (kwargs : gmap string kw) :
  is_None xl0 = true ->
  Shape_init get_shape_object [] xl0 kwargs
    = Fails (Std (ValueError "Invalid arguments")).
Proof. intros H. unfold Shape_init. rewrite H. reflexivity. Qed.

(** What the constructor call that ends [Chart.add] and [Picture.add]
    does, for every set of further keywords: the handle goes to
    [Shape.__init__] under the keyword [xl_shape], which it does not
    read. *)
Lemma Chart_init_handle (c : xl_handle) (kws : gmap string kw) :
  Chart_init get_shape_object get_chart_object [] (Some c) kws =
    match kws !! "xl_shape" with
    | Some _ => Fails (TypeError (MultipleValues "xl_shape"))
    | None =>
        if is_None (kws !! "xl")
        then Fails (Std (ValueError "Invalid arguments"))
        else Fails (TypeError ObjectInitArguments)
    end.
Proof.
  unfold Chart_init. cbn [obind].
  destruct (kws !! "xl_shape") as [v|]; [reflexivity|].
  unfold Shape_super. rewrite lookup_insert_ne by discriminate.
  destruct (is_None (kws !! "xl")) eqn:E.
  - rewrite Shape_init_no_args by exact E. reflexivity.
  - rewrite Shape_init_handle by exact E. reflexivity.
Qed.

Lemma Picture_init_handle (xl_shape : option xl_handle) (kws : gmap string kw) :
  Picture_init get_shape_object [] xl_shape kws =
    if is_None (kws !! "xl")
    then Fails (Std (ValueError "Invalid arguments"))
    else Fails (TypeError ObjectInitArguments).
Proof.
  unfold Picture_init, Shape_super. rewrite lookup_insert_ne by discriminate.
  destruct (is_None (kws !! "xl")) eqn:E.
  - apply Shape_init_no_args, E.
  - apply Shape_init_handle, E.
Qed.

(** X23: no [Shape], [Chart] or [Picture] is ever constructed, whatever
    the positional arguments and the keywords.  [Shape.__init__] ends by
    passing [xl] on to [object.__init__], which takes no keyword: with
    an [xl] other than [None] it raises that [TypeError], without one and
    with a number of positional arguments other than 1 or 2 it raises
    [ValueError('Invalid arguments')], and in no case does it return.
    The two subclasses forward their positional arguments and their
    keywords to it, a keyword [xl] included: [Picture] with an [xl]
    other than [None] raises the [TypeError] of [object.__init__], and
    [Chart] with a handle and a keyword [xl_shape] gives that keyword
    twice, a [TypeError] of the call. *)
Theorem shapes_never_constructed (args : list arg) (kwargs : gmap string kw) :
  (forall xl0, is_None xl0 = false ->
     Shape_init get_shape_object args xl0 kwargs
       = Fails (TypeError ObjectInitArguments)) /\
  (forall xl0, is_None xl0 = true ->
     length args <> 1%nat -> length args <> 2%nat ->
     Shape_init get_shape_object args xl0 kwargs
       = Fails (Std (ValueError "Invalid arguments"))) /\
  (forall xl0, exists e, Shape_init get_shape_object args xl0 kwargs = Fails e) /\
  (forall xl_shape, exists e,
     Picture_init get_shape_object args xl_shape kwargs = Fails e) /\
  (forall xl_chart, exists e,
     Chart_init get_shape_object get_chart_object args xl_chart kwargs = Fails e) /\
  (forall xl_shape, is_None (kwargs !! "xl") = false ->
     Picture_init get_shape_object args xl_shape kwargs
       = Fails (TypeError ObjectInitArguments)) /\
  (forall c v, kwargs !! "xl_shape" = Some v ->
     Chart_init get_shape_object get_chart_object args (Some c) kwargs
       = Fails (TypeError (MultipleValues "xl_shape"))) /\
  (forall c, kwargs !! "xl_shape" = None -> is_None (kwargs !! "xl") = false ->
     Chart_init get_shape_object get_chart_object args (Some c) kwargs
       = Fails (TypeError ObjectInitArguments)).
Proof.
  split; [intros xl0 H; apply Shape_init_handle, H|].
  split; [|split; [|split; [|split; [|split; [|split]]]]].
  - intros xl0 H H1 H2. unfold Shape_init. rewrite H.
    destruct args as [|a [|b [|c l]]]; simpl in *;
      try reflexivity; congruence.
  - intros xl0. apply Shape_init_fails.
  - intros xl_shape. apply Shape_init_fails.
  - intros xl_chart. unfold Chart_init.
    match goal with |- context [obind ?m _] => destruct m as [c|e] end;
      cbn [obind]; [|eexists; reflexivity].
    destruct (kwargs !! "xl_shape") as [v|]; cbn [obind];
      [eexists; reflexivity|].
    unfold Shape_super.
    match goal with
    | |- context [Shape_init _ ?a ?x ?k] =>
        destruct (Shape_init_fails a x k) as [e ->]
    end.
    eexists; reflexivity.
  - intros xl_shape H. unfold Picture_init, Shape_super.
    rewrite lookup_insert_ne by discriminate.
    apply Shape_init_handle, H.
  - intros c v H. unfold Chart_init. cbn [obind]. rewrite H. reflexivity.
  - intros c Hs Hx. unfold Chart_init. cbn [obind]. rewrite Hs.
    unfold Shape_super. rewrite lookup_insert_ne by discriminate.
    rewrite Shape_init_handle by exact Hx. reflexivity.
Qed.

(** X24: [Chart.add] never returns a chart.  When the sheet is found,
    the platform has added the chart and the name, if any, is set, the
    call [cls(xl_chart=...)] that ends it raises
    [ValueError('Invalid arguments')]: the handle reaches
    [Shape.__init__] under the keyword [xl_shape], which it does not
    read, with no positional argument and no [xl].  So does
    [Picture(xl_shape=...)], the call that ends [Picture.add].  With
    further keywords the same two calls raise the [ValueError] as long as
    no [xl] other than [None] is among them, the [TypeError] of
    [object.__init__] when there is one, and for [Chart] the [TypeError]
    of the call when [xl_shape] is given again. *)
Theorem chart_add_never_returns (sheet : option arg)
    (left top width height : Z) (kwargs : gmap string kw) :
  (exists e, Chart_add get_shape_object get_chart_object add_chart set_name
               xlColumnClustered sheet left top width height kwargs = Fails e) /\
  (forall sh c,
     match sheet with None => Sheet_active | Some s => as_Sheet s end = Ok sh ->
     add_chart sh left top width height = Ok c ->
     (kw_bool (kwargs !! "name") = true ->
      set_name c (default (KwVal VNone) (kwargs !! "name")) = Ok tt) ->
     Chart_add get_shape_object get_chart_object add_chart set_name
       xlColumnClustered sheet left top width height kwargs
       = Fails (Std (ValueError "Invalid arguments"))) /\
  (forall c kws,
     Chart_init get_shape_object get_chart_object [] (Some c) kws =
       match kws !! "xl_shape" with
       | Some _ => Fails (TypeError (MultipleValues "xl_shape"))
       | None =>
           if is_None (kws !! "xl")
           then Fails (Std (ValueError "Invalid arguments"))
           else Fails (TypeError ObjectInitArguments)
       end) /\
  (forall s kws,
     Picture_init get_shape_object [] (Some s) kws =
       if is_None (kws !! "xl")
       then Fails (Std (ValueError "Invalid arguments"))
       else Fails (TypeError ObjectInitArguments)).
Proof.
  assert (Hchart : forall c ct sd,
            Chart_init get_shape_object get_chart_object [] (Some c)
              (<["chart_type" := ct]> (<["source_data" := sd]> ∅))
              = Fails (Std (ValueError "Invalid arguments"))).
  { intros c ct sd. rewrite Chart_init_handle.
    rewrite !lookup_insert_ne by discriminate. rewrite !lookup_empty.
    reflexivity. }
  split; [|split; [|split]].
  - unfold Chart_add.
    assert (Hsheet : exists m : res Sheet,
              match sheet with
              | None => lift Sheet_active
              | Some s => lift (as_Sheet s)
              end = lift m).
    { destruct sheet; eexists; reflexivity. }
    destruct Hsheet as [m ->].
    destruct m as [sh|e]; cbn [lift obind]; [|eexists; reflexivity].
    destruct (add_chart sh left top width height) as [c|e]; cbn [lift obind];
      [|eexists; reflexivity].
    destruct (kw_bool (kwargs !! "name")).
    + destruct (set_name c _) as [[]|e]; cbn [lift obind];
        [rewrite Hchart|]; eexists; reflexivity.
    + cbn [obind]. rewrite Hchart. eexists; reflexivity.
  - intros sh c Hsh Hadd Hname. unfold Chart_add.
    assert (match sheet with
            | None => lift Sheet_active
            | Some s => lift (as_Sheet s)
            end = Done sh) as ->.
    { destruct sheet; rewrite Hsh; reflexivity. }
    cbn [obind]. rewrite Hadd. cbn [lift obind].
    destruct (kw_bool (kwargs !! "name")).
    + rewrite Hname by reflexivity. cbn [lift obind]. apply Hchart.
    + cbn [obind]. apply Hchart.
  - intros c kws. apply Chart_init_handle.
  - intros s kws. apply Picture_init_handle.
Qed.

End ShapeFacts.

Section CallerFacts.

Context {L : StrLower}.

Variable isfile : string -> bool.
Variable wbs_open : Application -> string -> Workbook.
Variable wbs_add : Application -> Workbook.
Variable launch : Application.
Variable get_open_workbook :
  string -> option string -> option string -> res (xl_handle * xl_handle).
Variable get_xl_workbook_current : option xl_handle.

Lemma Workbook_call_xl_workbook (applications : list Application)
    (h : xl_handle) (more : list (string * kwarg)) :
  Workbook_call isfile wbs_open wbs_add launch applications
    (("xl_workbook", KwXl h) :: more)
    = Fails (TypeError (UnexpectedKeyword "xl_workbook")).
Proof. reflexivity. Qed.

(** X25: [Workbook.caller()] never returns a workbook.  Each of its
    three ways to a workbook ends in a call of the class with the keyword
    [xl_workbook], which [Workbook.__init__(self, fullname=None,
    xl=None)] does not have; so with a mock caller set and the file open
    the result is that [TypeError], and without any way the documented
    [Exception]. *)
Theorem caller_never_returns (applications : list Application)
    (_mock_file : option string) (argv : list string) (platform : string) :
  (exists e, caller isfile wbs_open wbs_add launch get_open_workbook
               get_xl_workbook_current applications _mock_file argv platform
             = Fails e) /\
  (forall fullpath found,
     get_open_workbook fullpath None None = Ok found ->
     caller isfile wbs_open wbs_add launch get_open_workbook
       get_xl_workbook_current applications (set_mock_caller fullpath) argv platform
     = Fails (TypeError (UnexpectedKeyword "xl_workbook"))) /\
  (_mock_file = None -> (length argv <= 2)%nat -> get_xl_workbook_current = None ->
   caller isfile wbs_open wbs_add launch get_open_workbook
     get_xl_workbook_current applications _mock_file argv platform
   = Fails (Std (Exception msg_caller))).
Proof.
  split; [|split].
  - unfold caller. destruct _mock_file as [f|].
    + destruct (get_open_workbook f None None) as [found|e]; cbn [lift obind];
        eexists; [apply Workbook_call_xl_workbook | reflexivity].
    + destruct (_ && _)%bool.
      * destruct (argv_at argv 1) as [name|e]; cbn [lift obind];
          [|eexists; reflexivity].
        destruct (String.prefix "win" platform).
        -- destruct (argv_at argv 4) as [hwnd|e]; cbn [lift obind];
             [|eexists; reflexivity].
           destruct (get_open_workbook _ _ _) as [found|e]; cbn [lift obind];
             eexists; [apply Workbook_call_xl_workbook | reflexivity].
        -- destruct (argv_at argv 3) as [target|e]; cbn [lift obind];
             [|eexists; reflexivity].
           destruct (get_open_workbook _ _ _) as [found|e]; cbn [lift obind];
             eexists; [apply Workbook_call_xl_workbook | reflexivity].
      * destruct get_xl_workbook_current as [h|];
          eexists; [apply Workbook_call_xl_workbook | reflexivity].
  - intros fullpath found Hfound. unfold caller, set_mock_caller.
    rewrite Hfound. reflexivity.
  - intros -> Hlen Hcur. unfold caller. rewrite Hcur.
    destruct (Nat.ltb_spec 2 (length argv)); [lia|]. reflexivity.
Qed.

End CallerFacts.

(** [Shape()] raises the [ValueError]; [Picture(xl_shape=7, xl=3)] and
    [Chart(xl_chart=8, xl=3)] raise the [TypeError] of [object.__init__],
    and [Chart(xl_chart=8, xl_shape=7)] the [TypeError] of the call. *)
Lemma shapes_never_constructed_witness :
  Shape_init (P := grid_platform) (fun _ _ => Ok 7%nat) [] None ∅
    = Fails (Std (ValueError "Invalid arguments")) /\
  Picture_init (P := grid_platform) (fun _ _ => Ok 7%nat) [] (Some 7%nat)
      {[ "xl" := KwHandle 3%nat ]}
    = Fails (TypeError ObjectInitArguments) /\
  Chart_init (P := grid_platform) (fun _ _ => Ok 7%nat) (fun _ _ => Ok 8%nat)
      [] (Some 8%nat) {[ "xl" := KwHandle 3%nat ]}
    = Fails (TypeError ObjectInitArguments) /\
  Chart_init (P := grid_platform) (fun _ _ => Ok 7%nat) (fun _ _ => Ok 8%nat)
      [] (Some 8%nat) {[ "xl_shape" := KwHandle 7%nat ]}
    = Fails (TypeError (MultipleValues "xl_shape")).
Proof.
  split; [|split; [|split]].
  - destruct (@shapes_never_constructed grid_platform (fun _ _ => Ok 7%nat)
                (fun _ _ => Ok 8%nat) [] ∅) as (_ & H & _).
    apply H; [reflexivity | discriminate | discriminate].
  - destruct (@shapes_never_constructed grid_platform (fun _ _ => Ok 7%nat)
                (fun _ _ => Ok 8%nat) [] {[ "xl" := KwHandle 3%nat ]})
      as (_ & _ & _ & _ & _ & H & _).
    apply H. reflexivity.
  - destruct (@shapes_never_constructed grid_platform (fun _ _ => Ok 7%nat)
                (fun _ _ => Ok 8%nat) [] {[ "xl" := KwHandle 3%nat ]})
      as (_ & _ & _ & _ & _ & _ & _ & H).
    apply H; reflexivity.
  - destruct (@shapes_never_constructed grid_platform (fun _ _ => Ok 7%nat)
                (fun _ _ => Ok 8%nat) [] {[ "xl_shape" := KwHandle 7%nat ]})
      as (_ & _ & _ & _ & _ & _ & H & _).
    apply (H 8%nat (KwHandle 7%nat)). reflexivity.
Defined.

Lemma chart_add_never_returns_witness :
  Chart_add (P := grid_platform) (fun _ _ => Ok 7%nat) (fun _ _ => Ok 8%nat)
    (fun _ _ _ _ _ => Ok 9%nat) (fun _ _ => Ok tt) 51
    None 0 0 355 211 ∅
    = Fails (Std (ValueError "Invalid arguments")).
Proof.
  destruct (@chart_add_never_returns grid_platform (fun _ _ => Ok 7%nat)
              (fun _ _ => Ok 8%nat) (fun _ _ _ _ _ => Ok 9%nat) (fun _ _ => Ok tt)
              51 None 0 0 355 211 ∅) as (_ & H & _).
  apply (H Sheet1 9%nat); reflexivity.
Defined.

Lemma caller_never_returns_witness :
  caller (fun _ => false) demo_open demo_add demo_launch
    (fun _ _ _ => Ok (1%nat, 2%nat)) None two_instances
    (set_mock_caller "book1.xlsm") ["script.py"] "win32"
  = Fails (TypeError (UnexpectedKeyword "xl_workbook")).
Proof.
  destruct (caller_never_returns (fun _ => false) demo_open demo_add demo_launch
              (fun _ _ _ => Ok (1%nat, 2%nat)) None two_instances
              None ["script.py"] "win32") as (_ & H & _).
  apply (H "book1.xlsm" (1%nat, 2%nat)). reflexivity.
Defined.

Section Acceptance.

Context {P : XlPlatform}.

(** X26: without [xl], [Range(...)] builds a range only from two ranges,
    from an address as the last of at most two arguments, or from a
    tuple without 0 as the last of at most three, the one before it being
    a tuple as well when there are three.  A single range, a number or a
    [Sheet] in last place, no argument or more than three never give a
    range. *)
Theorem range_init_accepts (args : list arg) (options : gmap string value)
    (r : Range) :
  Range_init args None options = Ok r ->
  (exists a b, args = [ARange a; ARange b]) \/
  ((length args <= 2)%nat /\ is_string (last args) = true) \/
  ((length args <= 3)%nat /\
   (exists t, last args = Some (ATuple t) /\ existsb (Z.eqb 0) t = false) /\
   (length args = 3%nat -> is_tuple (args !! 1%nat) = true)).
Proof.
  intros H.
  destruct args as [|a [|b [|c [|d l]]]];
    [discriminate H | destruct a | destruct a, b | destruct a, b, c
     | destruct a, b, c; discriminate H].
  all: unfold Range_init in H; simpl in H.
  all: repeat match type of H with
       | context [existsb ?f ?t] => destruct (existsb f t) eqn:?; simpl in H
       end.
  all: try discriminate H.
  all: first
    [ left; eexists; eexists; reflexivity
    | right; left; split; [simpl; lia | reflexivity]
    | right; right; split; [simpl; lia|];
      split; [eexists; split; [reflexivity | eassumption]
             | first [discriminate | reflexivity]] ].
Qed.

(** X27: on a well-formed range a linear index returns a cell exactly
    when [-count <= index < count], and that cell is a single cell
    inside the range. *)
Theorem linear_index_inside (self : Range) (i : Z) :
  well_formed self ->
  ((exists r, getitem self (KInt i) = Ok r) <-> - len self <= i < len self) /\
  (forall r, getitem self (KInt i) = Ok r ->
     worksheet r = worksheet self /\
     row self <= row r < row self + row_count self /\
     column self <= column r < column self + column_count self /\
     row_count r = 1 /\ column_count r = 1).
Proof.
  intros Hwf. pose proof Hwf as (Hr & Hc & Hn & Hm).
  assert (Hcell : forall k, 0 <= k < len self ->
            exists r, call1 self (k + 1) = Ok r /\
              worksheet r = worksheet self /\
              row self <= row r < row self + row_count self /\
              column self <= column r < column self + column_count self /\
              row_count r = 1 /\ column_count r = 1).
  { intros k Hk. eexists. split; [apply call1_row_major; [assumption|lia]|].
    cbn [worksheet row column row_count column_count xl
         xr_sheet xr_row xr_col xr_rows xr_cols].
    pose proof (Z.mod_pos_bound k (column_count self) ltac:(lia)).
    pose proof (Z.div_pos k (column_count self) ltac:(lia) ltac:(lia)).
    assert (k / column_count self < row_count self).
    { apply Z.div_lt_upper_bound; [lia|]. unfold len in Hk. lia. }
    unfold column_count, row_count in *. repeat split; lia. }
  unfold getitem.
  destruct (Z.geb_spec i (len self)).
  { split; [|discriminate]. split; [intros [r Hx]; discriminate Hx | lia]. }
  destruct (Z.ltb_spec i 0).
  - destruct (Z.ltb_spec i (- len self)).
    { split; [|discriminate]. split; [intros [r Hx]; discriminate Hx | lia]. }
    replace (len self + i + 1) with (len self + i + 1) by reflexivity.
    destruct (Hcell (len self + i) ltac:(lia)) as (r0 & Hr0 & Hin).
    rewrite Hr0. split.
    + split; [lia | eauto].
    + intros r [= <-]. exact Hin.
  - destruct (Hcell i ltac:(lia)) as (r0 & Hr0 & Hin).
    rewrite Hr0. split.
    + split; [lia | eauto].
    + intros r [= <-]. exact Hin.
Qed.

(** X28: iterating over a well-formed range goes through its cells row
    by row: the item at position [i * columns + j] is the cell [i] rows
    down and [j] columns right of the top-left cell, and no item is a
    failure. *)
Theorem iter_row_major (self : Range) (i j : Z) :
  well_formed self ->
  0 <= i < row_count self -> 0 <= j < column_count self ->
  Range_iter self !! Z.to_nat (i * column_count self + j) =
    Some (Ok (mkRange (mkXl (worksheet self) (row self + i) (column self + j) 1 1)
                (call_options (_options self)))).
Proof.
  intros Hwf Hi Hj. pose proof Hwf as (Hr & Hc & Hn & Hm).
  assert (0 <= i * column_count self + j < len self) as Hk by (unfold len; nia).
  unfold Range_iter. rewrite list_lookup_fmap.
  rewrite lookup_seq_lt by lia. cbn [fmap option_fmap option_map].
  f_equal.
  replace (Z.of_nat (0 + Z.to_nat (i * column_count self + j)))
    with (i * column_count self + j) by lia.
  rewrite call1_row_major by (assumption || lia).
  assert ((i * column_count self + j) / column_count self = i) as ->.
  { symmetry. apply (Z.div_unique _ _ _ j); lia. }
  assert ((i * column_count self + j) mod column_count self = j) as ->.
  { symmetry. apply (Z.mod_unique _ _ i); lia. }
  reflexivity.
Qed.

End Acceptance.

Lemma range_init_accepts_witness :
  (exists a b, corners_args = [ARange a; ARange b]) \/
  ((length corners_args <= 2)%nat /\ is_string (last corners_args) = true) \/
  ((length corners_args <= 3)%nat /\
   (exists t, last corners_args = Some (ATuple t) /\ existsb (Z.eqb 0) t = false) /\
   (length corners_args = 3%nat -> is_tuple (corners_args !! 1%nat) = true)).
Proof.
  apply (@range_init_accepts grid_platform corners_args ∅ (region Sheet1 1 1 3 3)).
  reflexivity.
Defined.

Lemma linear_index_inside_witness :
  ((exists r, @getitem grid_platform B2C3 (KInt (-4)) = Ok r) <->
   - len B2C3 <= -4 < len B2C3) /\
  (forall r, @getitem grid_platform B2C3 (KInt (-4)) = Ok r ->
     worksheet r = worksheet B2C3 /\
     row B2C3 <= row r < row B2C3 + row_count B2C3 /\
     column B2C3 <= column r < column B2C3 + column_count B2C3 /\
     row_count r = 1 /\ column_count r = 1).
Proof.
  apply (@linear_index_inside grid_platform B2C3 (-4)).
  repeat split; discriminate.
Defined.

Lemma iter_row_major_witness :
  @Range_iter grid_platform B2C3 !! Z.to_nat (1 * column_count B2C3 + 0) =
    Some (Ok (cell Sheet1 3 2)).
Proof.
  apply (@iter_row_major grid_platform B2C3 1 0).
  - repeat split; discriminate.
  - split; [discriminate | reflexivity].
  - split; [discriminate | reflexivity].
Defined.
